(** * tcp-shaker: the Linux socket layer (socket_linux.go)

    A shallow embedding of the non-blocking connect engine: socket creation,
    the epoll poller, event translation, address resolution and the
    classification of connect(2) results.

    The Go code talks to the operating system through the packages
    [golang.org/x/sys/unix], [net], [os] and [runtime].  Each of them is a
    module below.  The system calls are an interface (a type class over the
    type of worlds); the functions of socket_linux.go are written once, over
    any implementation of it.  [Kernel] is a reference implementation with a
    descriptor table, a fault script and a trace of the calls made. *)

From Stdlib Require Import ZArith DecimalString.
From Stdlib.Strings Require Import Byte.
From stdpp Require Import base gmap strings list.

Open Scope Z_scope.

(** ** Go values *)

(** Two's complement wrap-around of a signed integer of [bits] bits. *)
Definition wrap (bits : Z) (x : Z) : Z :=
  (x + 2 ^ (bits - 1)) `mod` 2 ^ bits - 2 ^ (bits - 1).

(** The conversions [int32(x)] and [int(x)]; [int] has 64 bits on the
    64-bit Linux targets. *)
Definition int32 (x : Z) : Z := wrap 32 x.
Definition int (x : Z) : Z := wrap 64 x.

(** The values of [int64], the representation of [time.Duration]. *)
Definition is_int64 (x : Z) : Prop := - 2 ^ 63 <= x < 2 ^ 63.

(** The verb [%d] of [fmt.Sprintf]. *)
Definition sprint_d (x : Z) : string := NilZero.string_of_int (Z.to_int x).

(** Go's [error] values that this file builds or compares.

    Modelled from the spec: [ErrConnect] stands for the result of
    [newErrConnect], declared outside socket_linux.go: a connect-error
    carrying the numeric cause. *)
Inductive error : Type :=
| Errno (e : Z)
| SyscallError (Syscall : string) (cause : error)
| AddrError (msg : string) (Addr : string)
| ErrConnect (errCode : Z)
| OtherError (msg : string).

(** [err == e] for an [error] interface value and a [unix.Errno] constant. *)
Definition is_errno (err : option error) (e : Z) : bool :=
  match err with
  | Some (Errno x) => x =? e
  | _ => false
  end.

(** [err == nil]. *)
Definition is_nil (err : option error) : bool :=
  match err with
  | None => true
  | Some _ => false
  end.

(** Code that reads and changes the world: explicit state passing. *)
Definition state (W A : Type) : Type := W -> A * W.

#[global] Instance state_ret {W} : MRet (state W) := fun A a w => (a, w).
#[global] Instance state_bind {W} : MBind (state W) :=
  fun A B f m w => let (a, w') := m w in f a w'.

(** A Go call either returns or panics. *)
Inductive outcome (A : Type) : Type :=
| Ret (a : A)
| Panic.
Arguments Ret {A} a.
Arguments Panic {A}.

(** ** Package os *)
Module os.

(** [os.NewSyscallError]: nil stays nil. *)
Definition NewSyscallError (syscall : string) (err : option error) : option error :=
  match err with
  | None => None
  | Some e => Some (SyscallError syscall e)
  end.

End os.

(** ** Package golang.org/x/sys/unix, on Linux *)
Module unix.

Definition EINTR : Z := 4.
Definition EPERM : Z := 1.
Definition EBADF : Z := 9.
Definition EEXIST : Z := 17.
Definition EINVAL : Z := 22.
Definition EMFILE : Z := 24.
Definition ENOTSOCK : Z := 88.
Definition EISCONN : Z := 106.
Definition ECONNREFUSED : Z := 111.
Definition EALREADY : Z := 114.
Definition EINPROGRESS : Z := 115.

Definition AF_INET : Z := 2.
Definition AF_INET6 : Z := 10.
Definition SOCK_STREAM : Z := 1.
Definition IPPROTO_TCP : Z := 6.
Definition TCP_QUICKACK : Z := 12.
Definition SOL_SOCKET : Z := 1.
Definition SO_ERROR : Z := 4.
Definition SO_LINGER : Z := 13.

Definition EPOLL_CLOEXEC : Z := 524288.
Definition EPOLL_CTL_ADD : Z := 1.
Definition EPOLLIN : Z := 1.
Definition EPOLLOUT : Z := 4.
Definition EPOLLET : Z := 2147483648.

Record Linger := { Onoff : Z; Linger_ : Z }.

Record EpollEvent := { Events : Z; Fd : Z; Pad : Z }.

(** The zero value of [EpollEvent]. *)
Definition EpollEvent_zero : EpollEvent := {| Events := 0; Fd := 0; Pad := 0 |}.

Inductive Sockaddr : Type :=
| SockaddrInet4 (Port : Z) (Addr : list byte)
| SockaddrInet6 (Port : Z) (ZoneId : Z) (Addr : list byte).

(** The calls socket_linux.go makes.  [EpollWait] receives the slice and
    returns the events it stored at its front. *)
Class Sys (W : Type) := {
  Socket : Z -> Z -> Z -> state W (Z * option error);
  CloseOnExec : Z -> state W unit;
  Close : Z -> state W (option error);
  SetNonblock : Z -> bool -> state W (option error);
  SetsockoptInt : Z -> Z -> Z -> Z -> state W (option error);
  SetsockoptLinger : Z -> Z -> Z -> Linger -> state W (option error);
  GetsockoptInt : Z -> Z -> Z -> state W (Z * option error);
  EpollCreate1 : Z -> state W (Z * option error);
  EpollCtl : Z -> Z -> Z -> EpollEvent -> state W (option error);
  EpollWait : Z -> list EpollEvent -> Z -> state W (list EpollEvent * Z * option error);
  Connect : Z -> Sockaddr -> state W (option error)
}.

(** What a slice holds after a callee stored [out] at its front: the
    length of the slice is fixed. *)
Definition stored (buf out : list EpollEvent) : list EpollEvent :=
  take (length buf) (out ++ drop (length out) buf).

End unix.

(** ** Package net *)
Module net.

Definition IPv4len : nat := 4.
Definition IPv6len : nat := 16.

(** [net.IP]: a slice of bytes; the nil slice has no bytes. *)
Definition IP : Type := list byte.

Record TCPAddr := { IP_ : IP; Port : Z; Zone : string }.

Definition v4InV6Prefix : list byte :=
  replicate 10 Byte.x00 ++ [Byte.xff; Byte.xff].

Definition isZeros (p : list byte) : bool :=
  forallb (fun b => Byte.eqb b Byte.x00) p.

(** [ip[i] == b], for an index within the slice. *)
Definition is_byte (x : option byte) (b : byte) : bool :=
  match x with
  | Some a => Byte.eqb a b
  | None => false
  end.

(** [ip.To4()]: [None] is the nil result. *)
Definition To4 (ip : IP) : option IP :=
  if bool_decide (length ip = IPv4len) then Some ip
  else if bool_decide (length ip = IPv6len)
          && isZeros (take 10 ip)
          && is_byte (ip !! 10%nat) Byte.xff
          && is_byte (ip !! 11%nat) Byte.xff
       then Some (take 4 (drop 12 ip))
       else None.

(** [ip.To16()]. *)
Definition To16 (ip : IP) : option IP :=
  if bool_decide (length ip = IPv4len) then Some (v4InV6Prefix ++ ip)
  else if bool_decide (length ip = IPv6len) then Some ip
  else None.

(** The resolver, and the printer [ip.String()] that the error message
    uses.  A resolution yields an address or an error. *)
Class Resolver (W : Type) := {
  ResolveTCPAddr : string -> string -> state W (TCPAddr + error);
  IP_String : IP -> string
}.

End net.

(** [copy(dst[:], src)] into a zeroed array of [n] bytes. *)
Definition copy (n : nat) (src : list byte) : list byte :=
  take n (src ++ replicate (n - length src)%nat Byte.x00).

(** ** socket_linux.go *)

(** Modelled from the spec: the type [event] is declared outside
    socket_linux.go: a readiness event is a descriptor and an optional
    error. *)
Record event := { Fd : Z; Err : option error }.

Definition maxEpollEvents : nat := 32.

Definition zeroLinger : unix.Linger := {| unix.Onoff := 1; unix.Linger_ := 0 |}.

Section Code.

Context {W : Type} `{!unix.Sys W} `{!net.Resolver W}.

(** [runtime.GOOS]. *)
Variable GOOS : string.

Definition _createSocket (family : Z) : state W (Z * option error) :=
  '(fd, err) ← unix.Socket family unix.SOCK_STREAM 0;
  _ ← unix.CloseOnExec fd;
  mret (fd, err).

Definition _setSockOpts (fd : Z) : state W (option error) :=
  err ← unix.SetNonblock fd true;
  match err with
  | Some _ => mret err
  | None => unix.SetsockoptInt fd unix.IPPROTO_TCP unix.TCP_QUICKACK 0
  end.

Definition _setZeroLinger (fd : Z) : state W (option error) :=
  unix.SetsockoptLinger fd unix.SOL_SOCKET unix.SO_LINGER zeroLinger.

Definition _createNonBlockingSocket (family : Z) : state W (Z * option error) :=
  '(fd, err) ← _createSocket family;
  match err with
  | Some _ => mret (0, err)
  | None =>
      err ← _setSockOpts fd;
      match err with
      | Some _ => _ ← unix.Close fd; mret (fd, err)
      | None => mret (fd, err)
      end
  end.

Definition createSocketZeroLinger (family : Z) (zeroLinger : bool)
  : state W (Z * option error) :=
  '(fd, err) ← _createNonBlockingSocket family;
  match err with
  | None =>
      if zeroLinger then err ← _setZeroLinger fd; mret (fd, err)
      else mret (fd, err)
  | Some _ => mret (fd, err)
  end.

Definition createPoller : state W (Z * option error) :=
  '(fd, err) ← unix.EpollCreate1 unix.EPOLL_CLOEXEC;
  match err with
  | Some _ => mret (fd, os.NewSyscallError "epoll_create1" err)
  | None => mret (fd, err)
  end.

Definition registerEvents (pollerFd fd : Z) : state W (option error) :=
  let event :=
    {| unix.Events := Z.lor (Z.lor unix.EPOLLOUT unix.EPOLLIN) unix.EPOLLET;
       unix.Fd := int32 fd;
       unix.Pad := 0 |} in
  err ← unix.EpollCtl pollerFd unix.EPOLL_CTL_ADD fd event;
  match err with
  | Some _ =>
      mret (os.NewSyscallError
              ("epoll_ctl(" +:+ sprint_d pollerFd +:+ ", ADD, " +:+ sprint_d fd +:+ ", ...)")
              err)
  | None => mret None
  end.

(** The body of [for i := 0; i < nEvents; i++]: [n] iterations are left,
    the next index is [i]. *)
Fixpoint pollEvents_loop (epollEvents : list unix.EpollEvent) (n : nat) (i : nat)
    (events : list event) : state W (outcome (list event)) :=
  match n with
  | O => mret (Ret events)
  | S n' =>
      match epollEvents !! i with
      | None => mret Panic
      | Some ee =>
          let fd := int (unix.Fd ee) in
          let evt := {| Fd := fd; Err := None |} in
          '(errCode, err) ← unix.GetsockoptInt fd unix.SOL_SOCKET unix.SO_ERROR;
          let evt :=
            match err with
            | Some _ => {| Fd := Fd evt; Err := os.NewSyscallError "getsockopt" err |}
            | None => evt
            end in
          let evt :=
            if bool_decide (errCode ≠ 0)
            then {| Fd := Fd evt; Err := Some (ErrConnect errCode) |}
            else evt in
          pollEvents_loop epollEvents n' (S i) (events ++ [evt])
      end
  end.

(** [timeout] is the [time.Duration], in nanoseconds.  The nil slice is
    the empty list.  Indexing the array beyond its length and
    [make] with a negative capacity panic. *)
Definition pollEvents (pollerFd : Z) (timeout : Z)
  : state W (outcome (list event * option error)) :=
  let timeoutMS := int (timeout ÷ 1000000) in
  let epollEvents := replicate maxEpollEvents unix.EpollEvent_zero in
  '(out, nEvents, err) ← unix.EpollWait pollerFd epollEvents timeoutMS;
  let epollEvents := unix.stored epollEvents out in
  match err with
  | Some _ =>
      if is_errno err unix.EINTR then mret (Ret ([], None))
      else mret (Ret ([], os.NewSyscallError "epoll_wait" err))
  | None =>
      if bool_decide (nEvents < 0) then mret Panic
      else
        r ← pollEvents_loop epollEvents (Z.to_nat nEvents) 0 [];
        match r with
        | Ret events => mret (Ret (events, None))
        | Panic => mret Panic
        end
  end.

Definition parseSockAddr (addr : string)
  : state W (option unix.Sockaddr * Z * option error) :=
  r ← net.ResolveTCPAddr "tcp" addr;
  match r with
  | inr err => mret (None, 0, Some err)
  | inl tAddr =>
      match net.To4 (net.IP_ tAddr) with
      | Some ip =>
          mret (Some (unix.SockaddrInet4 (net.Port tAddr) (copy net.IPv4len ip)),
                unix.AF_INET, None)
      | None =>
          match net.To16 (net.IP_ tAddr) with
          | Some ip =>
              mret (Some (unix.SockaddrInet6 (net.Port tAddr) 0 (copy net.IPv6len ip)),
                    unix.AF_INET6, None)
          | None =>
              mret (None, 0,
                    Some (AddrError "unsupported address family"
                            (net.IP_String (net.IP_ tAddr))))
          end
      end
  end.

Definition connect (fd : Z) (addr : unix.Sockaddr) : state W (bool * option error) :=
  serr ← unix.Connect fd addr;
  if is_errno serr unix.EALREADY || is_errno serr unix.EINPROGRESS
     || is_errno serr unix.EINTR
  then mret (false, None)
  else if is_nil serr || is_errno serr unix.EISCONN
  then mret (true, None)
  else if is_errno serr unix.EINVAL
  then if bool_decide (GOOS = "solaris") then mret (true, None)
       else mret (false, serr)
  else mret (false, serr).

End Code.

(** ** A reference kernel

    The descriptor table with the attributes the program sets, a script of
    faults and the trace of the calls made.  A scripted call takes the head
    of the script: [Some (n, e)] makes it fail with the raw value [n] and the
    error [e] and leaves the table alone; [None], or an empty script, lets
    it go through.  Of each call only what socket_linux.go uses is
    modelled. *)
Module Kernel.

Record socket := {
  so_family : Z;
  so_type : Z;
  so_protocol : Z;
  so_cloexec : bool;
  so_nonblock : bool;
  so_quickack : option Z;          (* the value TCP_QUICKACK was last set to *)
  so_linger : option unix.Linger;  (* the value SO_LINGER was last set to *)
  so_error : Z                     (* the pending error, SO_ERROR *)
}.

Record epoll := {
  ep_cloexec : bool;
  ep_interest : gmap Z unix.EpollEvent;  (* registered descriptors *)
  ep_ready : list unix.EpollEvent        (* events not yet delivered *)
}.

Inductive file : Type :=
| FSocket (s : socket)
| FEpoll (e : epoll).

Inductive call : Type :=
| CSocket (family type protocol : Z)
| CCloseOnExec (fd : Z)
| CClose (fd : Z)
| CSetNonblock (fd : Z) (nonblocking : bool)
| CSetsockoptInt (fd level opt value : Z)
| CSetsockoptLinger (fd level opt : Z) (l : unix.Linger)
| CGetsockoptInt (fd level opt : Z)
| CEpollCreate1 (flag : Z)
| CEpollCtl (epfd op fd : Z) (ev : unix.EpollEvent)
| CEpollWait (epfd : Z) (maxevents : nat) (msec : Z)
| CConnect (fd : Z) (sa : unix.Sockaddr).

Record kernel := {
  files : gmap Z file;
  script : list (option (Z * error));
  trace : list call;
  hosts : gmap string net.TCPAddr
}.

Definition log (c : call) (k : kernel) : kernel :=
  {| files := files k; script := script k; trace := trace k ++ [c]; hosts := hosts k |}.

Definition with_files (fs : gmap Z file) (k : kernel) : kernel :=
  {| files := fs; script := script k; trace := trace k; hosts := hosts k |}.

(** Take the head of the script. *)
Definition next_fault : state kernel (option (Z * error)) :=
  fun k =>
    match script k with
    | [] => (None, k)
    | f :: rest =>
        (f, {| files := files k; script := rest; trace := trace k; hosts := hosts k |})
    end.

(** A descriptor that is not open. *)
Definition unused (k : kernel) : Z := fresh (dom (files k)).

Definition new_socket (family type protocol : Z) : socket :=
  {| so_family := family; so_type := type; so_protocol := protocol;
     so_cloexec := false; so_nonblock := false;
     so_quickack := None; so_linger := None; so_error := 0 |}.

Definition set_cloexec (f : file) : file :=
  match f with
  | FSocket s =>
      FSocket {| so_family := so_family s; so_type := so_type s;
                 so_protocol := so_protocol s; so_cloexec := true;
                 so_nonblock := so_nonblock s; so_quickack := so_quickack s;
                 so_linger := so_linger s; so_error := so_error s |}
  | FEpoll e =>
      FEpoll {| ep_cloexec := true; ep_interest := ep_interest e;
                ep_ready := ep_ready e |}
  end.

Definition set_nonblock (b : bool) (s : socket) : socket :=
  {| so_family := so_family s; so_type := so_type s; so_protocol := so_protocol s;
     so_cloexec := so_cloexec s; so_nonblock := b; so_quickack := so_quickack s;
     so_linger := so_linger s; so_error := so_error s |}.

Definition set_quickack (v : Z) (s : socket) : socket :=
  {| so_family := so_family s; so_type := so_type s; so_protocol := so_protocol s;
     so_cloexec := so_cloexec s; so_nonblock := so_nonblock s; so_quickack := Some v;
     so_linger := so_linger s; so_error := so_error s |}.

Definition set_linger (l : unix.Linger) (s : socket) : socket :=
  {| so_family := so_family s; so_type := so_type s; so_protocol := so_protocol s;
     so_cloexec := so_cloexec s; so_nonblock := so_nonblock s;
     so_quickack := so_quickack s; so_linger := Some l; so_error := so_error s |}.

Definition set_error (v : Z) (s : socket) : socket :=
  {| so_family := so_family s; so_type := so_type s; so_protocol := so_protocol s;
     so_cloexec := so_cloexec s; so_nonblock := so_nonblock s;
     so_quickack := so_quickack s; so_linger := so_linger s; so_error := v |}.

Definition set_ready (q : list unix.EpollEvent) (e : epoll) : epoll :=
  {| ep_cloexec := ep_cloexec e; ep_interest := ep_interest e; ep_ready := q |}.

Definition add_interest (fd : Z) (ev : unix.EpollEvent) (e : epoll) : epoll :=
  {| ep_cloexec := ep_cloexec e; ep_interest := <[fd := ev]> (ep_interest e);
     ep_ready := ep_ready e |}.

(** Quick-ack mode, as reading TCP_QUICKACK back reports it: a socket starts
    with it on, and setting the option to [v] switches it on when [v] is
    not zero and off when it is. *)
Definition quickack_on (s : socket) : bool :=
  match so_quickack s with
  | Some v => negb (v =? 0)
  | None => true
  end.

(** A scripted call on a socket: [upd] is its effect on the socket. *)
Definition on_socket (fd : Z) (upd : socket -> socket) : state kernel (option error) :=
  fun k =>
    let (fault, k) := next_fault k in
    match fault with
    | Some (_, e) => (Some e, k)
    | None =>
        match files k !! fd with
        | Some (FSocket s) => (None, with_files (<[fd := FSocket (upd s)]> (files k)) k)
        | Some (FEpoll _) => (Some (Errno unix.ENOTSOCK), k)
        | None => (Some (Errno unix.EBADF), k)
        end
    end.

Definition Socket (family type protocol : Z) : state kernel (Z * option error) :=
  fun k =>
    let (fault, k) := next_fault (log (CSocket family type protocol) k) in
    match fault with
    | Some (n, e) => ((n, Some e), k)
    | None =>
        let fd := unused k in
        ((fd, None),
         with_files (<[fd := FSocket (new_socket family type protocol)]> (files k)) k)
    end.

(** [unix.CloseOnExec] reports nothing. *)
Definition CloseOnExec (fd : Z) : state kernel unit :=
  fun k =>
    let k := log (CCloseOnExec fd) k in
    (tt, with_files (alter set_cloexec fd (files k)) k).

(** [close] is not scripted: it releases an open descriptor. *)
Definition Close (fd : Z) : state kernel (option error) :=
  fun k =>
    let k := log (CClose fd) k in
    match files k !! fd with
    | Some _ => (None, with_files (delete fd (files k)) k)
    | None => (Some (Errno unix.EBADF), k)
    end.

Definition SetNonblock (fd : Z) (nonblocking : bool) : state kernel (option error) :=
  fun k => on_socket fd (set_nonblock nonblocking) (log (CSetNonblock fd nonblocking) k).

Definition SetsockoptInt (fd level opt value : Z) : state kernel (option error) :=
  fun k =>
    on_socket fd
      (fun s =>
         if bool_decide (level = unix.IPPROTO_TCP ∧ opt = unix.TCP_QUICKACK)
         then set_quickack value s else s)
      (log (CSetsockoptInt fd level opt value) k).

Definition SetsockoptLinger (fd level opt : Z) (l : unix.Linger)
  : state kernel (option error) :=
  fun k =>
    on_socket fd
      (fun s =>
         if bool_decide (level = unix.SOL_SOCKET ∧ opt = unix.SO_LINGER)
         then set_linger l s else s)
      (log (CSetsockoptLinger fd level opt l) k).

(** Reading SO_ERROR returns the pending error and clears it. *)
Definition GetsockoptInt (fd level opt : Z) : state kernel (Z * option error) :=
  fun k =>
    let (fault, k) := next_fault (log (CGetsockoptInt fd level opt) k) in
    match fault with
    | Some (n, e) => ((n, Some e), k)
    | None =>
        match files k !! fd with
        | Some (FSocket s) =>
            if bool_decide (level = unix.SOL_SOCKET ∧ opt = unix.SO_ERROR)
            then ((so_error s, None),
                  with_files (<[fd := FSocket (set_error 0 s)]> (files k)) k)
            else ((0, None), k)
        | Some (FEpoll _) => ((0, Some (Errno unix.ENOTSOCK)), k)
        | None => ((0, Some (Errno unix.EBADF)), k)
        end
    end.

Definition EpollCreate1 (flag : Z) : state kernel (Z * option error) :=
  fun k =>
    let (fault, k) := next_fault (log (CEpollCreate1 flag) k) in
    match fault with
    | Some (n, e) => ((n, Some e), k)
    | None =>
        let fd := unused k in
        let e := {| ep_cloexec := bool_decide (Z.land flag unix.EPOLL_CLOEXEC ≠ 0);
                    ep_interest := ∅; ep_ready := [] |} in
        ((fd, None), with_files (<[fd := FEpoll e]> (files k)) k)
    end.

(** Only EPOLL_CTL_ADD is modelled. *)
Definition EpollCtl (epfd op fd : Z) (ev : unix.EpollEvent) : state kernel (option error) :=
  fun k =>
    let (fault, k) := next_fault (log (CEpollCtl epfd op fd ev) k) in
    match fault with
    | Some (_, e) => (Some e, k)
    | None =>
        match files k !! epfd, files k !! fd with
        | Some (FEpoll e), Some (FSocket _) =>
            if bool_decide (op = unix.EPOLL_CTL_ADD)
            then match ep_interest e !! fd with
                 | Some _ => (Some (Errno unix.EEXIST), k)
                 | None =>
                     (None, with_files (<[epfd := FEpoll (add_interest fd ev e)]> (files k)) k)
                 end
            else (Some (Errno unix.EINVAL), k)
        | Some (FSocket _), Some _ | Some (FEpoll _), Some (FEpoll _) =>
            (Some (Errno unix.EINVAL), k)
        | _, _ => (Some (Errno unix.EBADF), k)
        end
    end.

(** Delivers the oldest undelivered events, as many as the slice holds;
    the others stay queued. *)
Definition EpollWait (epfd : Z) (events : list unix.EpollEvent) (msec : Z)
  : state kernel (list unix.EpollEvent * Z * option error) :=
  fun k =>
    let (fault, k) := next_fault (log (CEpollWait epfd (length events) msec) k) in
    match fault with
    | Some (n, e) => (([], n, Some e), k)
    | None =>
        match files k !! epfd with
        | Some (FEpoll e) =>
            let out := take (length events) (ep_ready e) in
            ((out, Z.of_nat (length out), None),
             with_files
               (<[epfd := FEpoll (set_ready (drop (length events) (ep_ready e)) e)]> (files k))
               k)
        | Some (FSocket _) => (([], -1, Some (Errno unix.EINVAL)), k)
        | None => (([], -1, Some (Errno unix.EBADF)), k)
        end
    end.

(** The result of a connect is the network's: the script gives it. *)
Definition Connect (fd : Z) (sa : unix.Sockaddr) : state kernel (option error) :=
  fun k =>
    let (fault, k) := next_fault (log (CConnect fd sa) k) in
    match fault with
    | Some (_, e) => (Some e, k)
    | None => (None, k)
    end.

#[global] Instance kernel_sys : unix.Sys kernel := {
  unix.Socket := Socket;
  unix.CloseOnExec := CloseOnExec;
  unix.Close := Close;
  unix.SetNonblock := SetNonblock;
  unix.SetsockoptInt := SetsockoptInt;
  unix.SetsockoptLinger := SetsockoptLinger;
  unix.GetsockoptInt := GetsockoptInt;
  unix.EpollCreate1 := EpollCreate1;
  unix.EpollCtl := EpollCtl;
  unix.EpollWait := EpollWait;
  unix.Connect := Connect
}.

(** The resolver looks the text up in [hosts]; a text it does not know
    fails the way a text without a port does. *)
Definition ResolveTCPAddr (network address : string) : state kernel (net.TCPAddr + error) :=
  fun k =>
    match hosts k !! address with
    | Some a => (inl a, k)
    | None => (inr (AddrError "missing port in address" address), k)
    end.

(** Dotted decimal for four bytes; the printer is not modelled further. *)
Definition IP_String (ip : net.IP) : string :=
  match ip with
  | [a; b; c; d] =>
      sprint_d (Z.of_N (Byte.to_N a)) +:+ "." +:+ sprint_d (Z.of_N (Byte.to_N b)) +:+ "."
      +:+ sprint_d (Z.of_N (Byte.to_N c)) +:+ "." +:+ sprint_d (Z.of_N (Byte.to_N d))
  | [] => "<nil>"
  | _ => "?"
  end.

#[global] Instance kernel_resolver : net.Resolver kernel := {
  net.ResolveTCPAddr := ResolveTCPAddr;
  net.IP_String := IP_String
}.

(** A kernel with nothing open. *)
Definition boot (faults : list (option (Z * error))) : kernel :=
  {| files := ∅; script := faults; trace := []; hosts := ∅ |}.

End Kernel.

(** ** Observing the pending-error reads *)

Section Reads.

Context {W : Type} `{!unix.Sys W}.

(** The answers of the kernel to the pending-error reads that the loop of
    [pollEvents] makes on the descriptors [fds], in order. *)
Fixpoint pending_errors (fds : list Z) : state W (list (Z * option error)) :=
  match fds with
  | [] => mret []
  | fd :: rest =>
      r ← unix.GetsockoptInt fd unix.SOL_SOCKET unix.SO_ERROR;
      rs ← pending_errors rest;
      mret (r :: rs)
  end.

End Reads.

(** The error the loop body of [pollEvents] leaves on the event, from the
    answer [(errCode, err)] of the read. *)
Definition attached (r : Z * option error) : option error :=
  if bool_decide (r.1 ≠ 0) then Some (ErrConnect r.1)
  else os.NewSyscallError "getsockopt" r.2.

(** The descriptors of the first [n] entries of the array. *)
Definition ready_fds (epollEvents : list unix.EpollEvent) (n : nat) : list Z :=
  (fun ee => int (unix.Fd ee)) <$> take n epollEvents.

(** ** Concrete kernels *)
Module Scenario.

Import Kernel.

(** The event the kernel queues for a registered descriptor. *)
Definition ready_event (fd : Z) : unix.EpollEvent :=
  {| unix.Events := unix.EPOLLOUT; unix.Fd := int32 fd; unix.Pad := 0 |}.

Definition pending_socket (code : Z) : file :=
  FSocket (set_error code (new_socket unix.AF_INET unix.SOCK_STREAM 0)).

(** A poller at descriptor 3 and the sockets [socks], each a descriptor
    with its pending error, all registered and ready, in this order. *)
Definition racing (socks : list (Z * Z)) (faults : list (option (Z * error))) : kernel :=
  {| files :=
       <[3 := FEpoll {| ep_cloexec := true;
                        ep_interest := list_to_map ((λ p, (p.1, ready_event p.1)) <$> socks);
                        ep_ready := (λ p, ready_event p.1) <$> socks |}]>
         (list_to_map ((λ p, (p.1, pending_socket p.2)) <$> socks));
     script := faults; trace := []; hosts := ∅ |}.

(** [n] connected sockets, at the descriptors from 4 on. *)
Definition crowd (n : nat) : list (Z * Z) :=
  (λ i, (4 + Z.of_nat i, 0)) <$> seq 0 n.

Definition loopback4 : net.TCPAddr :=
  {| net.IP_ := net.v4InV6Prefix ++ [Byte.x7f; Byte.x00; Byte.x00; Byte.x01];
     net.Port := 80; net.Zone := "" |}.

Definition loopback6 : net.TCPAddr :=
  {| net.IP_ := replicate 15 Byte.x00 ++ [Byte.x01]; net.Port := 80; net.Zone := "" |}.

(** A kernel whose resolver knows the two loopback endpoints. *)
Definition resolving : kernel :=
  {| files := ∅; script := []; trace := [];
     hosts := <["127.0.0.1:80" := loopback4]> (<["[::1]:80" := loopback6]> ∅) |}.

End Scenario.

(** ** The network *)
Module Network.

Import Kernel.

(** The connect on the socket [fd] completes with the pending error
    [code]: the kernel records the code and queues, on the poller [epfd],
    the event registered there for [fd]. *)
Definition completes (epfd fd code : Z) (k : kernel) : kernel :=
  match files k !! epfd, files k !! fd with
  | Some (FEpoll e), Some (FSocket s) =>
      match ep_interest e !! fd with
      | Some ev =>
          with_files
            (<[epfd := FEpoll (set_ready (ep_ready e ++ [ev]) e)]>
               (<[fd := FSocket (set_error code s)]> (files k)))
            k
      | None => k
      end
  | _, _ => k
  end.

End Network.

(** ** A wait that misreports *)
Module Misreport.

(** A system whose wait stores nothing and reports, without error, the
    count that the world holds; its other calls do nothing.  It breaks the
    contract of epoll_wait on purpose. *)
Definition sys : unix.Sys Z := {|
  unix.Socket := λ _ _ _ w, ((0, None), w);
  unix.CloseOnExec := λ _ w, (tt, w);
  unix.Close := λ _ w, (None, w);
  unix.SetNonblock := λ _ _ w, (None, w);
  unix.SetsockoptInt := λ _ _ _ _ w, (None, w);
  unix.SetsockoptLinger := λ _ _ _ _ w, (None, w);
  unix.GetsockoptInt := λ _ _ _ w, ((0, None), w);
  unix.EpollCreate1 := λ _ w, ((0, None), w);
  unix.EpollCtl := λ _ _ _ _ w, (None, w);
  unix.EpollWait := λ _ _ _ w, (([], w, None), w);
  unix.Connect := λ _ _ w, (None, w)
|}.

End Misreport.

(** ** A session *)
Module Session.

(** The kernel after a poller and a zero-linger IPv4 socket were created
    from nothing: the poller is descriptor 0, the socket descriptor 1. *)
Definition dialling : Kernel.kernel :=
  (createSocketZeroLinger unix.AF_INET true (createPoller (Kernel.boot [])).2).2.

End Session.
(** * Theorems *)

Ltac run := unfold mbind, mret, state_bind, state_ret in *.

Section Generic.

Context {W : Type} `{!unix.Sys W} `{!net.Resolver W}.

Lemma is_errno_true err e : is_errno err e = true ↔ err = Some (Errno e).
Proof.
  destruct err as [[x| | | |]|]; simpl; split; try done.
  - intros ->%Z.eqb_eq. done.
  - intros [= ->]. apply Z.eqb_refl.
Qed.

Lemma is_errno_false err e : is_errno err e = false ↔ err ≠ Some (Errno e).
Proof.
  rewrite <- is_errno_true. destruct (is_errno err e); split; congruence.
Qed.

(** C1: [connect] classifies the raw result of the connect call. *)
Theorem connect_classifies (GOOS : string) (fd : Z) (addr : unix.Sockaddr) (w : W) :
  let serr := (unix.Connect fd addr w).1 in
  let w' := (unix.Connect fd addr w).2 in
  let r := connect GOOS fd addr w in
  r.2 = w' ∧
  (serr = Some (Errno unix.EALREADY) ∨ serr = Some (Errno unix.EINPROGRESS)
     ∨ serr = Some (Errno unix.EINTR) → r.1 = (false, None)) ∧
  (serr = None ∨ serr = Some (Errno unix.EISCONN) → r.1 = (true, None)) ∧
  (serr = Some (Errno unix.EINVAL) →
     (GOOS = "solaris" → r.1 = (true, None)) ∧
     (GOOS ≠ "solaris" → r.1 = (false, Some (Errno unix.EINVAL)))) ∧
  (∀ e, serr = Some e →
     e ≠ Errno unix.EALREADY → e ≠ Errno unix.EINPROGRESS → e ≠ Errno unix.EINTR →
     e ≠ Errno unix.EISCONN → e ≠ Errno unix.EINVAL →
     r.1 = (false, Some e)).
Proof.
  intros serr w' r. subst serr w' r. unfold connect. run.
  destruct (unix.Connect fd addr w) as [serr w'] eqn:E. simpl.
  split.
  { repeat (case_match; simpl; try done). }
  split.
  { intros [-> | [-> | ->]]; reflexivity. }
  split.
  { intros [-> | ->]; reflexivity. }
  split.
  { intros ->. simpl. split; intros HG; case_bool_decide; done. }
  intros e -> H1 H2 H3 H4 H5.
  assert (Hn : ∀ c, e ≠ Errno c → is_errno (Some e) c = false).
  { intros c Hc. apply is_errno_false. congruence. }
  rewrite !Hn by done. reflexivity.
Qed.

Lemma stored_length (buf out : list unix.EpollEvent) :
  length (unix.stored buf out) = length buf.
Proof.
  unfold unix.stored. rewrite length_take, length_app, length_drop. lia.
Qed.

(** A failed wait: no event, and the error unless it is EINTR. *)
Lemma pollEvents_wait_failed (pollerFd timeout : Z) (w : W)
    (out : list unix.EpollEvent) (n : Z) (e : error) (w1 : W) :
  unix.EpollWait pollerFd (replicate maxEpollEvents unix.EpollEvent_zero)
    (int (timeout ÷ 1000000)) w = ((out, n, Some e), w1) →
  pollEvents pollerFd timeout w =
    (Ret ([], if is_errno (Some e) unix.EINTR then None
              else Some (SyscallError "epoll_wait" e)), w1).
Proof.
  intros E. unfold pollEvents. run. rewrite E.
  by destruct (is_errno (Some e) unix.EINTR).
Qed.

(** C5: an interrupted wait is an empty batch and no error; any other
    failure of the wait is returned as an error. *)
Theorem pollEvents_interrupted (pollerFd timeout : Z) (w : W)
    (out : list unix.EpollEvent) (n : Z) (e : error) (w1 : W) :
  unix.EpollWait pollerFd (replicate maxEpollEvents unix.EpollEvent_zero)
    (int (timeout ÷ 1000000)) w = ((out, n, Some e), w1) →
  (e = Errno unix.EINTR → pollEvents pollerFd timeout w = (Ret ([], None), w1)) ∧
  (e ≠ Errno unix.EINTR →
     pollEvents pollerFd timeout w = (Ret ([], Some (SyscallError "epoll_wait" e)), w1)).
Proof.
  intros E. rewrite (pollEvents_wait_failed _ _ _ _ _ _ _ E). split.
  - intros ->. reflexivity.
  - intros Hne. destruct (is_errno (Some e) unix.EINTR) eqn:Hi; [|done].
    apply is_errno_true in Hi. congruence.
Qed.

(** The loop, run on entries that exist, reads the pending error of each
    descriptor in turn and appends one event per entry. *)
Lemma pollEvents_loop_spec (epollEvents : list unix.EpollEvent) (n i : nat)
    (acc : list event) (w : W) :
  (i + n ≤ length epollEvents)%nat →
  pollEvents_loop epollEvents n i acc w =
    (Ret (acc ++ zip_with (λ fd r, {| Fd := fd; Err := attached r |})
                   (ready_fds (drop i epollEvents) n)
                   (pending_errors (ready_fds (drop i epollEvents) n) w).1),
     (pending_errors (ready_fds (drop i epollEvents) n) w).2).
Proof.
  revert i acc w. induction n as [|n IH]; intros i acc w Hlen.
  - simpl. run. unfold ready_fds. simpl. run. simpl.
    by rewrite app_nil_r.
  - destruct (lookup_lt_is_Some_2 epollEvents i) as [ee Hee]; [lia|].
    rewrite (drop_S _ _ _ Hee). unfold ready_fds in *.
    cbn [pollEvents_loop take fmap list_fmap pending_errors].
    rewrite Hee. run.
    destruct (unix.GetsockoptInt _ _ _ w) as [[errCode err] w1] eqn:EG.
    rewrite IH by lia.
    destruct (pending_errors _ w1) as [rs w2]. simpl.
    rewrite <- app_assoc. simpl. do 3 f_equal.
    unfold attached. simpl. destruct err; case_bool_decide; reflexivity.
Qed.

(** The loop returns only when every index it uses is within the array. *)
Lemma pollEvents_loop_returns (epollEvents : list unix.EpollEvent) (n i : nat)
    (acc events : list event) (w w' : W) :
  pollEvents_loop epollEvents n i acc w = (Ret events, w') →
  n = 0%nat ∨ (i + n ≤ length epollEvents)%nat.
Proof.
  revert i acc w. induction n as [|n IH]; intros i acc w; [by left|right].
  revert H1. simpl. destruct (epollEvents !! i) as [ee|] eqn:Hee; run; [|done].
  apply lookup_lt_Some in Hee.
  destruct (unix.GetsockoptInt _ _ _ w) as [[errCode err] w1].
  intros HH. apply IH in HH. lia.
Qed.

Lemma pending_errors_length (fds : list Z) (w : W) :
  length (pending_errors fds w).1 = length fds.
Proof.
  revert w. induction fds as [|fd fds IH]; intros w; [done|].
  simpl. run. destruct (unix.GetsockoptInt _ _ _ w) as [r w1].
  specialize (IH w1). destruct (pending_errors fds w1) as [rs w2].
  simpl in *. by rewrite IH.
Qed.


(** A wait that reports [n] ready descriptors, within the array, returns
    one event per reported entry, with the error [attached] to the answer
    of its pending-error read. *)
Lemma pollEvents_ready (pollerFd timeout : Z) (w : W)
    (out : list unix.EpollEvent) (n : Z) (w1 : W) :
  unix.EpollWait pollerFd (replicate maxEpollEvents unix.EpollEvent_zero)
    (int (timeout ÷ 1000000)) w = ((out, n, None), w1) →
  0 ≤ n ≤ Z.of_nat maxEpollEvents →
  pollEvents pollerFd timeout w =
    (Ret (zip_with (λ fd r, {| Fd := fd; Err := attached r |})
            (ready_fds (unix.stored (replicate maxEpollEvents unix.EpollEvent_zero) out)
               (Z.to_nat n))
            (pending_errors
               (ready_fds (unix.stored (replicate maxEpollEvents unix.EpollEvent_zero) out)
                  (Z.to_nat n)) w1).1,
          None),
     (pending_errors
        (ready_fds (unix.stored (replicate maxEpollEvents unix.EpollEvent_zero) out)
           (Z.to_nat n)) w1).2).
Proof.
  intros E Hn. unfold pollEvents. run. rewrite E.
  rewrite bool_decide_eq_false_2 by lia.
  rewrite pollEvents_loop_spec.
  2:{ rewrite stored_length, length_replicate. lia. }
  rewrite drop_0. reflexivity.
Qed.



(** C10: when the pending-error read of a ready descriptor fails and
    nevertheless returns a nonzero value, the event carries the
    connect-error built from that value; the read failure stays on the event
    exactly when the returned value is zero. *)
Theorem pollEvents_connect_error_overwrites (pollerFd timeout : Z) (w : W)
    (out : list unix.EpollEvent) (n : Z) (w1 : W) :
  unix.EpollWait pollerFd (replicate maxEpollEvents unix.EpollEvent_zero)
    (int (timeout ÷ 1000000)) w = ((out, n, None), w1) →
  0 ≤ n ≤ Z.of_nat maxEpollEvents →
  let fds := ready_fds (unix.stored (replicate maxEpollEvents unix.EpollEvent_zero) out)
               (Z.to_nat n) in
  let reads := pending_errors fds w1 in
  ∃ events,
    pollEvents pollerFd timeout w = (Ret (events, None), reads.2) ∧
    Forall2
      (λ evt '(errCode, err),
         ∀ e, err = Some e →
           (errCode ≠ 0 → Err evt = Some (ErrConnect errCode)) ∧
           (Err evt = Some (SyscallError "getsockopt" e) ↔ errCode = 0))
      events reads.1.
Proof.
  intros E Hn fds reads. eexists. split; [by apply pollEvents_ready|].
  fold fds. fold reads.
  assert (Hl : length reads.1 = length fds) by apply pending_errors_length.
  generalize dependent (reads.1). clear. induction fds as [|fd fds IH];
    intros [|[errCode err] rs] Hl; simplify_eq/=; constructor; [|by apply IH].
  intros e ->. unfold attached. simpl. case_bool_decide; simpl.
  - split; [done|]. split; [done|]. intros ->. done.
  - split; [done|]. split; [|done]. intros _.
    destruct (decide (errCode = 0)); [done|]. exfalso. auto.
Qed.

(** C8, amended: an error of poller creation, of registration and of the
    wait is a syscall error that wraps the raw cause, under the names
    [epoll_create1], [epoll_ctl(<poller>, ADD, <descriptor>, ...)] and
    [epoll_wait]; an error on an event that is not a connect-error is the
    failure of the pending-error read, wrapped under [getsockopt]. *)
Theorem surfaced_errors_are_named (w : W) :
  (∀ err, (createPoller w).1.2 = Some err →
     ∃ cause, (unix.EpollCreate1 unix.EPOLL_CLOEXEC w).1.2 = Some cause ∧
              err = SyscallError "epoll_create1" cause) ∧
  (∀ pollerFd fd err, (registerEvents pollerFd fd w).1 = Some err →
     ∃ ev cause,
       (unix.EpollCtl pollerFd unix.EPOLL_CTL_ADD fd ev w).1 = Some cause ∧
       err = SyscallError
               ("epoll_ctl(" +:+ sprint_d pollerFd +:+ ", ADD, " +:+ sprint_d fd +:+ ", ...)")
               cause) ∧
  (∀ pollerFd timeout events err,
     (pollEvents pollerFd timeout w).1 = Ret (events, Some err) →
     ∃ cause,
       (unix.EpollWait pollerFd (replicate maxEpollEvents unix.EpollEvent_zero)
          (int (timeout ÷ 1000000)) w).1.2 = Some cause ∧
       err = SyscallError "epoll_wait" cause) ∧
  (∀ pollerFd timeout out n w1,
     unix.EpollWait pollerFd (replicate maxEpollEvents unix.EpollEvent_zero)
       (int (timeout ÷ 1000000)) w = ((out, n, None), w1) →
     0 ≤ n ≤ Z.of_nat maxEpollEvents →
     ∃ events w2,
       pollEvents pollerFd timeout w = (Ret (events, None), w2) ∧
       Forall2
         (λ evt '(errCode, read_err),
            ∀ err, Err evt = Some err →
              (errCode ≠ 0 ∧ err = ErrConnect errCode) ∨
              (errCode = 0 ∧ ∃ cause, read_err = Some cause ∧
                                      err = SyscallError "getsockopt" cause))
         events
         (pending_errors
            (ready_fds (unix.stored (replicate maxEpollEvents unix.EpollEvent_zero) out)
               (Z.to_nat n)) w1).1).
Proof.
  repeat split.
  - unfold createPoller. run.
    destruct (unix.EpollCreate1 _ w) as [[fd [e|]] w1]; simpl; [|done].
    intros err [= <-]. eauto.
  - intros pollerFd fd err. unfold registerEvents. run.
    destruct (unix.EpollCtl _ _ _ _ w) as [[e|] w1] eqn:E; simpl; [|done].
    intros [= <-]. do 2 eexists. rewrite E. eauto.
  - intros pollerFd timeout events err. unfold pollEvents. run.
    destruct (unix.EpollWait _ _ _ w) as [[[out n] [e|]] w1].
    + destruct (is_errno (Some e) unix.EINTR); simpl; [done|].
      intros [= _ <-]. eauto.
    + case_bool_decide; [done|].
      by destruct (pollEvents_loop _ _ _ _ w1) as [[evs|] w2].
  - intros pollerFd timeout out n w1 E Hn.
    do 2 eexists. split; [by apply pollEvents_ready|].
    set (fds := ready_fds _ _).
    assert (Hl : length (pending_errors fds w1).1 = length fds)
      by apply pending_errors_length.
    generalize dependent ((pending_errors fds w1).1).
    clear. induction fds as [|fd fds IH];
      intros [|[errCode read_err] rs] Hl; simplify_eq/=; constructor; [|by apply IH].
    intros err. unfold attached. simpl. case_bool_decide.
    + intros [= <-]. by left.
    + destruct read_err as [cause|]; simpl; [|done].
      intros [= <-]. right. split; [|by eauto].
      destruct (decide (errCode = 0)); [done|]. exfalso. auto.
Qed.

Lemma To4_length (ip ip4 : net.IP) : net.To4 ip = Some ip4 → length ip4 = 4%nat.
Proof.
  unfold net.To4, net.IPv4len, net.IPv6len.
  case_bool_decide as H4; [by intros [= <-]|].
  case_bool_decide as H16; simpl; [|done].
  destruct (_ && _); [|done]. intros [= <-].
  rewrite length_take, length_drop. lia.
Qed.

Lemma To16_not_To4 (ip ip16 : net.IP) :
  net.To4 ip = None → net.To16 ip = Some ip16 → ip16 = ip ∧ length ip = 16%nat.
Proof.
  unfold net.To4, net.To16, net.IPv4len, net.IPv6len.
  case_bool_decide as H4; [done|]. intros _.
  case_bool_decide as H16; [|done]. by intros [= <-].
Qed.

Lemma copy_exact (n : nat) (src : list byte) : length src = n → copy n src = src.
Proof.
  intros <-. unfold copy. rewrite Nat.sub_diag. simpl.
  rewrite app_nil_r. apply firstn_all.
Qed.

(** C6: [parseSockAddr] hands a resolution error on, with no address; an
    address with an IPv4 form gives an IPv4 socket address and AF_INET;
    otherwise one with an IPv6 form gives an IPv6 socket address and
    AF_INET6; otherwise the error is the unsupported address family. *)
Theorem parseSockAddr_resolves (addr : string) (w : W) :
  let r := (net.ResolveTCPAddr "tcp" addr w).1 in
  let w' := (net.ResolveTCPAddr "tcp" addr w).2 in
  (∀ err, r = inr err → parseSockAddr addr w = ((None, 0, Some err), w')) ∧
  (∀ tAddr, r = inl tAddr →
     (∀ ip, net.To4 (net.IP_ tAddr) = Some ip →
        length ip = 4%nat ∧
        parseSockAddr addr w =
          ((Some (unix.SockaddrInet4 (net.Port tAddr) ip), unix.AF_INET, None), w')) ∧
     (net.To4 (net.IP_ tAddr) = None →
        (∀ ip, net.To16 (net.IP_ tAddr) = Some ip →
           length ip = 16%nat ∧
           parseSockAddr addr w =
             ((Some (unix.SockaddrInet6 (net.Port tAddr) 0 ip), unix.AF_INET6, None), w')) ∧
        (net.To16 (net.IP_ tAddr) = None →
           parseSockAddr addr w =
             ((None, 0,
               Some (AddrError "unsupported address family"
                       (net.IP_String (net.IP_ tAddr)))), w')))).
Proof.
  intros r w'. subst r w'. unfold parseSockAddr. run.
  destruct (net.ResolveTCPAddr "tcp" addr w) as [[tAddr|err0] w1]; simpl.
  - split; [done|]. intros ? [= <-]. split.
    + intros ip H4. pose proof (To4_length _ _ H4) as Hl.
      rewrite H4, copy_exact by done. done.
    + intros H4. rewrite H4. split.
      * intros ip H16. destruct (To16_not_To4 _ _ H4 H16) as [-> Hl].
        rewrite H16, copy_exact by done. done.
      * intros ->. done.
  - split; [|done]. by intros ? [= <-].
Qed.

(** *** Further properties, for any system *)

(** X1: when the socket call itself fails, socket creation attempts
    nothing else on the descriptor than marking it close-on-exec, and
    returns descriptor 0 with the error, not the raw value of the call. *)
Theorem createSocketZeroLinger_socket_failure (family : Z) (zl : bool) (w : W)
    (n : Z) (e : error) (w1 : W) :
  unix.Socket family unix.SOCK_STREAM 0 w = ((n, Some e), w1) →
  createSocketZeroLinger family zl w = ((0, Some e), (unix.CloseOnExec n w1).2).
Proof.
  intros E.
  unfold createSocketZeroLinger, _createNonBlockingSocket, _createSocket. run.
  rewrite E. by destruct (unix.CloseOnExec n w1).
Qed.

(** X2: [connect] reports success only without an error; an error it
    returns is the raw error of the connect call, never one of EALREADY,
    EINPROGRESS, EINTR and EISCONN, and comes with no success. *)
Theorem connect_outcomes (GOOS : string) (fd : Z) (addr : unix.Sockaddr) (w : W) :
  let r := (connect GOOS fd addr w).1 in
  (r.1 = true → r.2 = None) ∧
  (∀ e, r.2 = Some e →
     r.1 = false ∧ (unix.Connect fd addr w).1 = Some e ∧
     e ≠ Errno unix.EALREADY ∧ e ≠ Errno unix.EINPROGRESS ∧
     e ≠ Errno unix.EINTR ∧ e ≠ Errno unix.EISCONN) ∧
  (connect GOOS fd addr w).2 = (unix.Connect fd addr w).2.
Proof.
  intros r. subst r. unfold connect. run.
  destruct (unix.Connect fd addr w) as [serr w1]. cbn [fst snd].
  destruct (is_errno serr unix.EALREADY) eqn:Ha; [done|].
  destruct (is_errno serr unix.EINPROGRESS) eqn:Hb; [done|].
  destruct (is_errno serr unix.EINTR) eqn:Hc; [done|].
  destruct (is_nil serr) eqn:Hd; [done|].
  destruct (is_errno serr unix.EISCONN) eqn:He; [done|].
  apply is_errno_false in Ha, Hb, Hc, He.
  assert (Hraw : ∀ e, serr = Some e →
            false = false ∧ serr = Some e ∧ e ≠ Errno unix.EALREADY ∧
            e ≠ Errno unix.EINPROGRESS ∧ e ≠ Errno unix.EINTR ∧ e ≠ Errno unix.EISCONN).
  { intros e ->. repeat split; congruence. }
  cbn [orb]. destruct (is_errno serr unix.EINVAL); [case_bool_decide|]; done.
Qed.

Lemma pollEvents_loop_overrun (epollEvents : list unix.EpollEvent) (n i : nat)
    (acc : list event) (w : W) :
  (0 < n)%nat → (length epollEvents < i + n)%nat →
  (pollEvents_loop epollEvents n i acc w).1 = Panic.
Proof.
  revert i acc w. induction n as [|n IH]; intros i acc w Hn Hover; [lia|].
  simpl. destruct (epollEvents !! i) as [ee|] eqn:Hee; [|done].
  apply lookup_lt_Some in Hee. run.
  destruct (unix.GetsockoptInt _ _ _ w) as [[errCode err] w1].
  apply IH; lia.
Qed.

(** X3: [pollEvents] trusts the count of the wait: when the wait reports,
    without error, a count below zero or above the 32 slots of the array,
    the call panics. *)
Theorem pollEvents_panics_on_bad_count (pollerFd timeout : Z) (w : W)
    (out : list unix.EpollEvent) (n : Z) (w1 : W) :
  unix.EpollWait pollerFd (replicate maxEpollEvents unix.EpollEvent_zero)
    (int (timeout ÷ 1000000)) w = ((out, n, None), w1) →
  n < 0 ∨ Z.of_nat maxEpollEvents < n →
  (pollEvents pollerFd timeout w).1 = Panic.
Proof.
  intros E Hn. unfold pollEvents. run. rewrite E.
  case_bool_decide as Hneg; [done|].
  pose proof (pollEvents_loop_overrun
                (unix.stored (replicate maxEpollEvents unix.EpollEvent_zero) out)
                (Z.to_nat n) 0 [] w1) as Hp.
  rewrite stored_length, length_replicate in Hp.
  destruct (pollEvents_loop _ _ _ _ w1) as [[evs|] w2]; [|done].
  simpl in Hp. unfold maxEpollEvents in *. discriminate Hp; lia.
Qed.

Lemma isZeros_replicate (p : list byte) :
  net.isZeros p = true → p = replicate (length p) Byte.x00.
Proof.
  induction p as [|b p IH]; [done|]. simpl.
  intros [Hb Hp]%andb_prop. apply byte_dec_bl in Hb. by rewrite Hb, <- IH.
Qed.

Lemma To4_mapped (v4 : list byte) :
  length v4 = 4%nat → net.To4 (net.v4InV6Prefix ++ v4) = Some v4.
Proof.
  intros Hl. do 5 (destruct v4 as [|? v4]; try done).
Qed.

Lemma To4_unmapped (ip : net.IP) :
  length ip = 16%nat → take 12 ip ≠ net.v4InV6Prefix → net.To4 ip = None.
Proof.
  intros Hl Hne. unfold net.To4, net.IPv4len, net.IPv6len.
  rewrite bool_decide_eq_false_2 by lia.
  rewrite bool_decide_eq_true_2 by done. cbn [andb].
  destruct (net.isZeros (take 10 ip)) eqn:Hz; [|done].
  destruct (ip !! 10%nat) as [b10|] eqn:H10; [|done].
  destruct (ip !! 11%nat) as [b11|] eqn:H11; [|by rewrite andb_false_r].
  simpl. destruct (Byte.eqb b10 Byte.xff) eqn:E10; [|done].
  destruct (Byte.eqb b11 Byte.xff) eqn:E11; [|done].
  apply byte_dec_bl in E10, E11. subst. exfalso. apply Hne.
  rewrite (take_S_r _ _ _ H11), (take_S_r _ _ _ H10).
  apply isZeros_replicate in Hz. rewrite Hz, length_take, Hl. reflexivity.
Qed.

(** X4: what [parseSockAddr] makes of the bytes of a resolved address:
    four bytes are an IPv4 address; sixteen bytes that start with the
    IPv4-in-IPv6 prefix are the IPv4 address of the last four; any other
    sixteen bytes are an IPv6 address, with zone 0; any other length, the
    empty address included, is the unsupported address family. *)
Theorem parseSockAddr_by_bytes (addr : string) (w : W) (tAddr : net.TCPAddr) :
  (net.ResolveTCPAddr "tcp" addr w).1 = inl tAddr →
  let ip := net.IP_ tAddr in
  let r := (parseSockAddr addr w).1 in
  (length ip = 4%nat →
     r = (Some (unix.SockaddrInet4 (net.Port tAddr) ip), unix.AF_INET, None)) ∧
  (∀ v4, length v4 = 4%nat → ip = net.v4InV6Prefix ++ v4 →
     r = (Some (unix.SockaddrInet4 (net.Port tAddr) v4), unix.AF_INET, None)) ∧
  (length ip = 16%nat → take 12 ip ≠ net.v4InV6Prefix →
     r = (Some (unix.SockaddrInet6 (net.Port tAddr) 0 ip), unix.AF_INET6, None)) ∧
  (length ip ≠ 4%nat → length ip ≠ 16%nat →
     r = (None, 0,
          Some (AddrError "unsupported address family" (net.IP_String ip)))).
Proof.
  intros Hr ip r. subst ip r. unfold parseSockAddr. run.
  destruct (net.ResolveTCPAddr "tcp" addr w) as [res w1]. simpl in Hr. subst res.
  cbn [fst]. repeat split.
  - intros Hl. unfold net.To4, net.IPv4len.
    rewrite bool_decide_eq_true_2 by done. by rewrite copy_exact.
  - intros v4 Hl ->. rewrite To4_mapped by done. by rewrite copy_exact.
  - intros Hl Hne. rewrite To4_unmapped by done.
    unfold net.To16, net.IPv4len, net.IPv6len.
    rewrite bool_decide_eq_false_2 by lia.
    rewrite bool_decide_eq_true_2 by done. by rewrite copy_exact.
  - intros H4 H16. unfold net.To4, net.To16, net.IPv4len, net.IPv6len.
    by rewrite !bool_decide_eq_false_2 by done.
Qed.

End Generic.

(** ** On the reference kernel *)

Section OnKernel.

Import Kernel.

Implicit Types (k : kernel) (fd : Z) (s : socket).

Lemma next_fault_keeps k :
  files (next_fault k).2 = files k ∧ trace (next_fault k).2 = trace k
  ∧ hosts (next_fault k).2 = hosts k.
Proof. unfold next_fault. by destruct (script k). Qed.

(** Case analysis on the head of the script at a scripted call [c]: [Hf]
    and [Ht] relate the table and the trace behind it to those of [k]. *)
Ltac pop_script c k k0 Hf Ht :=
  pose proof (next_fault_keeps (log c k)) as (Hf & Ht & _);
  destruct (next_fault (log c k)) as [[[? ?]|] k0];
  simpl in Hf, Ht; cbv beta iota.

Lemma unused_free k : files k !! unused k = None.
Proof. apply not_elem_of_dom. unfold unused. apply is_fresh. Qed.

(** A socket call that succeeds found a socket and updated it. *)
Lemma Socket_ok k family type protocol fd k' :
  Socket family type protocol k = ((fd, None), k') →
  files k !! fd = None ∧
  files k' = <[fd := FSocket (new_socket family type protocol)]> (files k).
Proof.
  unfold Socket.
  destruct (next_fault _) as [[[n e]|] k1] eqn:E; [done|].
  pose proof (next_fault_keeps (log (CSocket family type protocol) k)) as (Hf & _).
  rewrite E in Hf. simpl in Hf.
  intros [= <- <-]. simpl. rewrite <- Hf. split; [apply unused_free|done].
Qed.

Lemma Socket_failed k family type protocol fd e k' :
  Socket family type protocol k = ((fd, Some e), k') → files k' = files k.
Proof.
  unfold Socket.
  destruct (next_fault _) as [[[n e']|] k1] eqn:E; [|done].
  intros [= _ _ <-]. pose proof (next_fault_keeps (log (CSocket family type protocol) k)) as (Hf & _).
  by rewrite E in Hf.
Qed.

Lemma on_socket_ok k fd upd k' :
  on_socket fd upd k = (None, k') →
  ∃ s, files k !! fd = Some (FSocket s) ∧ files k' = <[fd := FSocket (upd s)]> (files k).
Proof.
  unfold on_socket.
  destruct (next_fault k) as [[[n e]|] k1] eqn:E; [done|].
  pose proof (next_fault_keeps k) as (Hf & _). rewrite E in Hf. simpl in Hf.
  cbv beta iota. rewrite Hf. destruct (files k !! fd) as [[s|ep]|] eqn:El; [|done..].
  intros [= <-]. by exists s.
Qed.

Lemma on_socket_failed k fd upd e k' :
  on_socket fd upd k = (Some e, k') → files k' = files k.
Proof.
  unfold on_socket.
  destruct (next_fault k) as [[[n e']|] k1] eqn:E;
    pose proof (next_fault_keeps k) as (Hf & _); rewrite E in Hf; simpl in Hf.
  - by intros [= _ <-].
  - cbv beta iota. rewrite Hf.
    destruct (files k !! fd) as [[s|ep]|]; [done|by intros [= _ <-]..].
Qed.

Lemma CloseOnExec_files k fd :
  files (CloseOnExec fd k).2 = alter set_cloexec fd (files k).
Proof. reflexivity. Qed.

Lemma Close_files k fd : files (Close fd k).2 = delete fd (files k).
Proof.
  unfold Close. simpl. destruct (files k !! fd) eqn:E; simpl; [done|].
  symmetry. by apply delete_id.
Qed.

(** The calls of the interface, on the reference kernel. *)
Ltac on_kernel :=
  cbn [unix.Socket unix.CloseOnExec unix.Close unix.SetNonblock unix.SetsockoptInt
       unix.SetsockoptLinger unix.GetsockoptInt unix.EpollCreate1 unix.EpollCtl
       unix.EpollWait unix.Connect kernel_sys] in *.


(** The socket that [_createNonBlockingSocket] leaves in the table. *)
Lemma createNonBlockingSocket_ok k family fd k' :
  _createNonBlockingSocket family k = ((fd, None), k') →
  files k !! fd = None ∧
  files k' =
    <[fd := FSocket {| so_family := family; so_type := unix.SOCK_STREAM;
                       so_protocol := 0; so_cloexec := true; so_nonblock := true;
                       so_quickack := Some 0; so_linger := None; so_error := 0 |}]>
      (files k).
Proof.
  unfold _createNonBlockingSocket, _createSocket, _setSockOpts. run. on_kernel.
  destruct (Socket family unix.SOCK_STREAM 0 k) as [[fd0 [e|]] k1] eqn:ES; [done|].
  apply Socket_ok in ES as [Hfree Hk1].
  pose proof (CloseOnExec_files k1 fd0) as Hkc.
  destruct (CloseOnExec fd0 k1) as [[] kc]. simpl in Hkc.
  cbv beta iota.
  destruct (SetNonblock fd0 true kc) as [[e|] k2] eqn:EN.
  { cbv beta iota. by destruct (Close fd0 k2). }
  destruct (SetsockoptInt fd0 _ _ 0 k2) as [[e|] k3] eqn:EQ.
  { cbv beta iota. by destruct (Close fd0 k3). }
  intros [= <- <-]. split; [done|].
  apply on_socket_ok in EN as (s2 & Hs2 & Hk2). simpl in Hs2, Hk2.
  apply on_socket_ok in EQ as (s3 & Hs3 & Hk3). simpl in Hs3, Hk3.
  rewrite Hkc, Hk1, lookup_alter_eq, lookup_insert_eq in Hs2. simpl in Hs2.
  injection Hs2 as <-.
  rewrite Hk2, lookup_insert_eq in Hs3. injection Hs3 as <-.
  rewrite Hk3, Hk2, Hkc, Hk1.
  rewrite !insert_insert_eq.
  apply map_eq. intros i. destruct (decide (i = fd0)) as [->|Hne].
  - by rewrite !lookup_insert_eq.
  - rewrite !lookup_insert_ne by done. rewrite lookup_alter_ne by done.
    by rewrite lookup_insert_ne.
Qed.

(** What a successful [createSocketZeroLinger] leaves in the table. *)
Lemma createSocketZeroLinger_ok k family zl fd k' :
  createSocketZeroLinger family zl k = ((fd, None), k') →
  files k !! fd = None ∧
  files k' =
    <[fd := FSocket {| so_family := family; so_type := unix.SOCK_STREAM;
                       so_protocol := 0; so_cloexec := true; so_nonblock := true;
                       so_quickack := Some 0;
                       so_linger := if zl then Some zeroLinger else None;
                       so_error := 0 |}]>
      (files k).
Proof.
  unfold createSocketZeroLinger, _setZeroLinger. run. on_kernel.
  destruct (_createNonBlockingSocket family k) as [[fd0 [e|]] k1] eqn:EC; [done|].
  apply createNonBlockingSocket_ok in EC as [Hfree Hk1].
  destruct zl; [|by intros [= <- <-]].
  destruct (SetsockoptLinger fd0 _ _ zeroLinger k1) as [[e|] k2] eqn:EL; [done|].
  intros [= <- <-]. split; [done|].
  apply on_socket_ok in EL as (s & Hs & Hk2). simpl in Hs, Hk2.
  rewrite Hk1, lookup_insert_eq in Hs. injection Hs as <-.
  by rewrite Hk2, Hk1, insert_insert_eq.
Qed.

(** C3, amended: a descriptor that socket creation returns without error
    is a new stream socket of the requested family, close-on-exec and
    non-blocking, with TCP_QUICKACK set to 0. *)
Theorem created_socket_attributes k family zl fd k' :
  createSocketZeroLinger family zl k = ((fd, None), k') →
  files k !! fd = None ∧
  ∃ s, files k' !! fd = Some (FSocket s) ∧
       so_family s = family ∧ so_type s = unix.SOCK_STREAM ∧
       so_cloexec s = true ∧ so_nonblock s = true ∧
       so_quickack s = Some 0 ∧ quickack_on s = false.
Proof.
  intros [Hfree Hk']%createSocketZeroLinger_ok. split; [done|].
  eexists. rewrite Hk', lookup_insert_eq. by repeat split.
Qed.

(** With nothing failing, socket creation returns a descriptor. *)
Lemma createSocketZeroLinger_boot family zl :
  ∃ k', createSocketZeroLinger family zl (boot []) = ((0, None), k').
Proof. destruct zl; eexists; vm_compute; reflexivity. Qed.

(** C3 as stated fails: the socket that creation returns has quick-ack
    mode switched off. *)
Lemma created_socket_quickack_off :
  ¬ (∀ k family zl fd k',
       createSocketZeroLinger family zl k = ((fd, None), k') →
       ∃ s, files k' !! fd = Some (FSocket s) ∧
            so_family s = family ∧ so_type s = unix.SOCK_STREAM ∧
            so_cloexec s = true ∧ so_nonblock s = true ∧
            quickack_on s = true).
Proof.
  intros Hstated.
  destruct (createSocketZeroLinger_boot unix.AF_INET false) as [k' Hrun].
  destruct (Hstated _ _ _ _ _ Hrun) as (s & Hs & _ & _ & _ & _ & Hq).
  apply createSocketZeroLinger_ok in Hrun as [_ Hk'].
  rewrite Hk', lookup_insert_eq in Hs. injection Hs as <-. done.
Qed.

Lemma opened_then_closed (fd : Z) (X : gset Z) : fd ∉ X → ({[fd]} ∪ X) ∖ {[fd]} = X.
Proof.
  intros Hfd. apply set_eq. intros x.
  rewrite elem_of_difference, elem_of_union, elem_of_singleton. split.
  - by intros [[->|Hx] Hne].
  - intros Hx. split; [by right|]. by intros ->.
Qed.

(** The sibling path: when setting non-blocking mode or TCP_QUICKACK fails,
    [_createNonBlockingSocket] closes the descriptor: the open descriptors
    are those from before the call. *)
Lemma createNonBlockingSocket_failure_closes k family fd e k' :
  _createNonBlockingSocket family k = ((fd, Some e), k') →
  dom (files k') = dom (files k).
Proof.
  unfold _createNonBlockingSocket, _createSocket, _setSockOpts. run. on_kernel.
  destruct (Socket family unix.SOCK_STREAM 0 k) as [[fd0 [e0|]] k1] eqn:ES.
  - apply Socket_failed in ES.
    pose proof (CloseOnExec_files k1 fd0) as Hkc.
    destruct (CloseOnExec fd0 k1) as [[] kc]. simpl in Hkc.
    intros [= _ _ <-]. by rewrite Hkc, dom_alter_L, ES.
  - apply Socket_ok in ES as [Hfree Hk1].
    apply not_elem_of_dom in Hfree.
    pose proof (CloseOnExec_files k1 fd0) as Hkc.
    destruct (CloseOnExec fd0 k1) as [[] kc]. simpl in Hkc.
    cbv beta iota.
    destruct (SetNonblock fd0 true kc) as [[e1|] k2] eqn:EN.
    { cbv beta iota. apply on_socket_failed in EN. simpl in EN.
      pose proof (Close_files k2 fd0) as Hcl.
      destruct (Close fd0 k2) as [r kd]. simpl in Hcl.
      intros [= _ _ <-].
      rewrite Hcl, EN, Hkc, Hk1, dom_delete_L, dom_alter_L, dom_insert_L.
      by apply opened_then_closed. }
    apply on_socket_ok in EN as (s2 & _ & Hk2). simpl in Hk2.
    destruct (SetsockoptInt fd0 _ _ 0 k2) as [[e1|] k3] eqn:EQ; [|done].
    cbv beta iota. apply on_socket_failed in EQ. simpl in EQ.
    pose proof (Close_files k3 fd0) as Hcl.
    destruct (Close fd0 k3) as [r kd]. simpl in Hcl.
    intros [= _ _ <-].
    rewrite Hcl, EQ, Hk2, Hkc, Hk1, dom_delete_L, !dom_insert_L, dom_alter_L, dom_insert_L.
    rewrite (assoc_L (∪)), (idemp_L (∪)). by apply opened_then_closed.
Qed.

(** When setting SO_LINGER fails, [createSocketZeroLinger] returns the
    error and the descriptor stays open. *)
Lemma createSocketZeroLinger_linger_failure k family fd e k1 k2 :
  _createNonBlockingSocket family k = ((fd, None), k1) →
  _setZeroLinger fd k1 = (Some e, k2) →
  createSocketZeroLinger family true k = ((fd, Some e), k2) ∧
  files k !! fd = None ∧ is_Some (files k2 !! fd).
Proof.
  intros EC EL. unfold createSocketZeroLinger. run. rewrite EC, EL.
  split; [done|].
  apply createNonBlockingSocket_ok in EC as [Hfree Hk1]. split; [done|].
  unfold _setZeroLinger in EL. on_kernel.
  apply on_socket_failed in EL. simpl in EL.
  rewrite EL, Hk1, lookup_insert_eq. by eexists.
Qed.

(** C2, at the failing input: the socket exists, non-blocking mode and
    TCP_QUICKACK are set, and setting SO_LINGER fails with EPERM.  The
    error is returned, descriptor 0 is still open and no close was
    made. *)
Theorem createSocketZeroLinger_leaks_on_linger_failure :
  let k := boot [None; None; None; Some (-1, Errno unix.EPERM)] in
  let r := createSocketZeroLinger unix.AF_INET true k in
  r.1 = (0, Some (Errno unix.EPERM)) ∧
  files k !! 0 = None ∧
  (∃ s, files r.2 !! 0 = Some (FSocket s)) ∧
  trace r.2 =
    [CSocket unix.AF_INET unix.SOCK_STREAM 0; CCloseOnExec 0; CSetNonblock 0 true;
     CSetsockoptInt 0 unix.IPPROTO_TCP unix.TCP_QUICKACK 0;
     CSetsockoptLinger 0 unix.SOL_SOCKET unix.SO_LINGER zeroLinger].
Proof.
  repeat split.
  vm_compute. eexists. reflexivity.
Qed.

(** *** The poller on the reference kernel *)




Lemma EpollWait_trace k pollerFd buf msec :
  trace (EpollWait pollerFd buf msec k).2 =
  trace k ++ [CEpollWait pollerFd (length buf) msec].
Proof.
  unfold EpollWait.
  pop_script (CEpollWait pollerFd (length buf) msec) k k0 Hf Ht; [done|].
  by destruct (files k0 !! pollerFd) as [[s|e]|].
Qed.

Lemma GetsockoptInt_trace k fd level opt :
  trace (GetsockoptInt fd level opt k).2 = trace k ++ [CGetsockoptInt fd level opt].
Proof.
  unfold GetsockoptInt.
  pop_script (CGetsockoptInt fd level opt) k k0 Hf Ht; [done|].
  destruct (files k0 !! fd) as [[s|e]|]; [|done..]. by case_bool_decide.
Qed.




Lemma zip_with_Fd (fds : list Z) (rs : list (Z * option error)) :
  length rs = length fds →
  Fd <$> zip_with (λ fd r, {| Fd := fd; Err := attached r |}) fds rs = fds.
Proof.
  revert rs. induction fds as [|fd fds IH]; intros [|r rs] Hl; simplify_eq/=; [done|].
  f_equal. by apply IH.
Qed.



Lemma int_id (x : Z) : is_int64 x → int x = x.
Proof.
  unfold is_int64, int, wrap. intros Hx.
  change (2 ^ (64 - 1)) with 9223372036854775808 in *.
  change (2 ^ 63) with 9223372036854775808 in *.
  change (2 ^ 64) with 18446744073709551616.
  rewrite Z.mod_small; lia.
Qed.

Lemma quot_millis (timeout : Z) :
  is_int64 timeout → is_int64 (timeout ÷ 1000000).
Proof.
  unfold is_int64. change (2 ^ 63) with 9223372036854775808. intros Hx.
  Z.to_euclidean_division_equations. lia.
Qed.



(** *** Further properties of socket creation *)

Lemma Socket_trace k family type protocol :
  trace (Socket family type protocol k).2 = trace k ++ [CSocket family type protocol].
Proof.
  unfold Socket.
  by pop_script (CSocket family type protocol) k k0 Hf Ht.
Qed.

Lemma on_socket_trace k fd upd : trace (on_socket fd upd k).2 = trace k.
Proof.
  unfold on_socket. pose proof (next_fault_keeps k) as (_ & Ht & _).
  destruct (next_fault k) as [[[n e]|] k0]; simpl in *; [done|].
  by destruct (files k0 !! fd) as [[s|ep]|].
Qed.

(** X5: an error of [_createNonBlockingSocket], and so of
    [createSocketZeroLinger] without zero-linger, leaves no descriptor
    behind: the open descriptors are those from before the call, and the
    descriptor returned with the error is 0 or a closed one. *)
Theorem socket_creation_error_releases k family fd e k' :
  (_createNonBlockingSocket family k = ((fd, Some e), k') →
     dom (files k') = dom (files k) ∧ (fd = 0 ∨ files k' !! fd = None)) ∧
  (createSocketZeroLinger family false k = ((fd, Some e), k') →
     dom (files k') = dom (files k) ∧ (fd = 0 ∨ files k' !! fd = None)).
Proof.
  assert (Hnb : _createNonBlockingSocket family k = ((fd, Some e), k') →
                dom (files k') = dom (files k) ∧ (fd = 0 ∨ files k' !! fd = None)).
  { intros Hrun. split; [by eapply createNonBlockingSocket_failure_closes|].
    revert Hrun.
    unfold _createNonBlockingSocket, _createSocket, _setSockOpts. run. on_kernel.
    destruct (Socket family unix.SOCK_STREAM 0 k) as [[fd0 [e0|]] k1].
    { destruct (CloseOnExec fd0 k1) as [[] kc]. intros [= <- _ _]. by left. }
    destruct (CloseOnExec fd0 k1) as [[] kc]. cbv beta iota.
    destruct (SetNonblock fd0 true kc) as [[e1|] k2].
    { cbv beta iota. pose proof (Close_files k2 fd0) as Hcl.
      destruct (Close fd0 k2) as [r kd]. simpl in Hcl.
      intros [= <- _ <-]. right. rewrite Hcl. apply lookup_delete_eq. }
    destruct (SetsockoptInt fd0 _ _ 0 k2) as [[e1|] k3]; [|done].
    cbv beta iota. pose proof (Close_files k3 fd0) as Hcl.
    destruct (Close fd0 k3) as [r kd]. simpl in Hcl.
    intros [= <- _ <-]. right. rewrite Hcl. apply lookup_delete_eq. }
  split; [exact Hnb|].
  unfold createSocketZeroLinger. run.
  destruct (_createNonBlockingSocket family k) as [[fd0 [e0|]] k1]; [|done].
  intros [= <- <- <-]. by apply Hnb.
Qed.

(** X6: a successful creation adds exactly the returned descriptor, a
    socket whose SO_LINGER is on with a zero timeout when zero-linger was
    asked for and untouched otherwise; every other descriptor is as
    before. *)
Theorem createSocketZeroLinger_linger k family zl fd k' :
  createSocketZeroLinger family zl k = ((fd, None), k') →
  (∃ s, files k' !! fd = Some (FSocket s) ∧
        so_linger s = if zl then Some {| unix.Onoff := 1; unix.Linger_ := 0 |} else None) ∧
  dom (files k') = {[fd]} ∪ dom (files k) ∧
  (∀ fd', fd' ≠ fd → files k' !! fd' = files k !! fd').
Proof.
  intros [Hfree Hk']%createSocketZeroLinger_ok. rewrite Hk'. repeat split.
  - eexists. rewrite lookup_insert_eq. split; [done|]. by destruct zl.
  - apply dom_insert_L.
  - intros fd' Hne. by rewrite lookup_insert_ne.
Qed.

(** X7: the calls of a successful creation, in order: the socket, its
    close-on-exec mark, non-blocking mode, TCP_QUICKACK set to 0 and, only
    with zero-linger, SO_LINGER; nothing is closed. *)
Theorem createSocketZeroLinger_calls k family zl fd k' :
  createSocketZeroLinger family zl k = ((fd, None), k') →
  trace k' =
    trace k ++
    [CSocket family unix.SOCK_STREAM 0; CCloseOnExec fd; CSetNonblock fd true;
     CSetsockoptInt fd unix.IPPROTO_TCP unix.TCP_QUICKACK 0] ++
    (if zl then [CSetsockoptLinger fd unix.SOL_SOCKET unix.SO_LINGER zeroLinger] else []).
Proof.
  unfold createSocketZeroLinger, _setZeroLinger, _createNonBlockingSocket,
    _createSocket, _setSockOpts. run. on_kernel.
  pose proof (Socket_trace k family unix.SOCK_STREAM 0) as T1.
  destruct (Socket family unix.SOCK_STREAM 0 k) as [[fd0 [e|]] k1]; simpl in T1.
  { by destruct (CloseOnExec fd0 k1) as [[] kc]. }
  assert (T2 : trace (CloseOnExec fd0 k1).2 = trace k1 ++ [CCloseOnExec fd0]) by done.
  destruct (CloseOnExec fd0 k1) as [[] kc]. simpl in T2. cbv beta iota.
  pose proof (on_socket_trace (log (CSetNonblock fd0 true) kc) fd0 (set_nonblock true)) as T3.
  unfold SetNonblock.
  destruct (on_socket fd0 (set_nonblock true) _) as [[e|] k2]; simpl in T3.
  { cbv beta iota. by destruct (Close fd0 k2). }
  unfold SetsockoptInt.
  match goal with |- context [on_socket fd0 ?u (log ?c k2)] =>
    pose proof (on_socket_trace (log c k2) fd0 u) as T4;
    destruct (on_socket fd0 u (log c k2)) as [[e|] k3]; simpl in T4
  end.
  { cbv beta iota. by destruct (Close fd0 k3). }
  destruct zl.
  - unfold SetsockoptLinger.
    match goal with |- context [on_socket fd0 ?u (log ?c k3)] =>
      pose proof (on_socket_trace (log c k3) fd0 u) as T5;
      destruct (on_socket fd0 u (log c k3)) as [[e|] k4]; simpl in T5
    end; [done|].
    intros [= <- <-]. rewrite T5, T4, T3, T2, T1, <- !app_assoc. reflexivity.
  - intros [= <- <-]. rewrite T4, T3, T2, T1, <- !app_assoc. reflexivity.
Qed.

(** *** Further properties of the poller *)

(** X8: a successful [createPoller] adds exactly one descriptor, a
    close-on-exec poller with nothing registered and nothing queued; a
    failed one leaves the table as it was. *)
Theorem createPoller_opens k :
  (∀ fd k', createPoller k = ((fd, None), k') →
     files k !! fd = None ∧
     files k' = <[fd := FEpoll {| ep_cloexec := true; ep_interest := ∅;
                                  ep_ready := [] |}]> (files k)) ∧
  (∀ fd err k', createPoller k = ((fd, Some err), k') → files k' = files k).
Proof.
  unfold createPoller. run. on_kernel. unfold EpollCreate1.
  pop_script (CEpollCreate1 unix.EPOLL_CLOEXEC) k k0 Hf Ht; split; try done.
  - intros fd err k'. by intros [= _ _ <-].
  - intros fd k'. intros [= <- <-]. simpl. rewrite <- Hf.
    split; [apply unused_free|done].
Qed.

Lemma EpollCtl_add_ok k epfd fd ev k' :
  EpollCtl epfd unix.EPOLL_CTL_ADD fd ev k = (None, k') →
  ∃ e s, files k !! epfd = Some (FEpoll e) ∧ files k !! fd = Some (FSocket s) ∧
         ep_interest e !! fd = None ∧
         files k' = <[epfd := FEpoll (add_interest fd ev e)]> (files k) ∧
         script k' = tail (script k).
Proof.
  unfold EpollCtl.
  assert (Hs : script (next_fault (log (CEpollCtl epfd unix.EPOLL_CTL_ADD fd ev) k)).2
               = tail (script k)).
  { unfold next_fault. simpl. destruct (script k) eqn:Es; simpl; [exact Es|reflexivity]. }
  pop_script (CEpollCtl epfd unix.EPOLL_CTL_ADD fd ev) k k0 Hf Ht; [done|].
  simpl in Hs. rewrite Hf.
  destruct (files k !! epfd) as [[s0|e]|] eqn:Hp;
    destruct (files k !! fd) as [[s|e1]|] eqn:Hfd; try done.
  rewrite bool_decide_eq_true_2 by done.
  destruct (ep_interest e !! fd) eqn:Hi; [done|].
  intros [= <-]. exists e, s. repeat split; done.
Qed.

Lemma EpollCtl_failed k epfd op fd ev err k' :
  EpollCtl epfd op fd ev k = (Some err, k') → files k' = files k.
Proof.
  unfold EpollCtl.
  pop_script (CEpollCtl epfd op fd ev) k k0 Hf Ht; [by intros [= _ <-]|].
  rewrite Hf.
  destruct (files k !! epfd) as [[s0|e]|]; destruct (files k !! fd) as [[s|e1]|];
    try (by intros [= _ <-]).
  case_bool_decide; [|by intros [= _ <-]].
  destruct (ep_interest e !! fd); [by intros [= _ <-]|done].
Qed.


(** X10: registering the same socket with the same poller a second time
    fails: the error is the syscall error of the formatted epoll_ctl call
    with the cause EEXIST, and the table is not changed. *)
Theorem registerEvents_twice k pollerFd fd k1 :
  registerEvents pollerFd fd k = (None, k1) →
  head (script k1) = None ∨ head (script k1) = Some None →
  ∃ k2,
    registerEvents pollerFd fd k1 =
      (Some (SyscallError
               ("epoll_ctl(" +:+ sprint_d pollerFd +:+ ", ADD, " +:+ sprint_d fd +:+ ", ...)")
               (Errno unix.EEXIST)), k2) ∧
    files k2 = files k1.
Proof.
  unfold registerEvents at 1. run. on_kernel.
  destruct (EpollCtl pollerFd _ fd _ k) as [[err|] k1'] eqn:E1; [done|].
  intros [= <-] Hs.
  apply EpollCtl_add_ok in E1 as (e & s & Hp & Hfd & Hi & Hk1 & _).
  assert (Hne : pollerFd ≠ fd) by (intros ->; congruence).
  unfold registerEvents. run. on_kernel.
  unfold EpollCtl, next_fault. simpl.
  assert (Hp1 : files k1' !! pollerFd =
                Some (FEpoll (add_interest fd
                        {| unix.Events := Z.lor (Z.lor unix.EPOLLOUT unix.EPOLLIN) unix.EPOLLET;
                           unix.Fd := int32 fd; unix.Pad := 0 |} e)))
    by (rewrite Hk1; apply lookup_insert_eq).
  assert (Hfd1 : files k1' !! fd = Some (FSocket s))
    by (rewrite Hk1, lookup_insert_ne; done).
  destruct (script k1') as [|[f|] rest]; simpl in *.
  - rewrite Hp1, Hfd1. simpl. rewrite lookup_insert_eq. by eexists.
  - by destruct Hs.
  - rewrite Hp1, Hfd1. simpl. rewrite lookup_insert_eq. by eexists.
Qed.

Lemma GetsockoptInt_dom k fd level opt :
  dom (files (GetsockoptInt fd level opt k).2) = dom (files k).
Proof.
  unfold GetsockoptInt.
  pop_script (CGetsockoptInt fd level opt) k k0 Hf Ht; simpl; [by rewrite Hf|].
  destruct (files k0 !! fd) as [[s|e1]|] eqn:Efd; simpl; [|by rewrite Hf..].
  case_bool_decide; simpl; [|by rewrite Hf].
  rewrite dom_insert_lookup_L by (by rewrite Efd). by rewrite Hf.
Qed.

Lemma EpollWait_dom k pollerFd buf msec :
  dom (files (EpollWait pollerFd buf msec k).2) = dom (files k).
Proof.
  unfold EpollWait.
  pop_script (CEpollWait pollerFd (length buf) msec) k k0 Hf Ht; simpl; [by rewrite Hf|].
  destruct (files k0 !! pollerFd) as [[s|e]|] eqn:Ep; simpl; [by rewrite Hf| |by rewrite Hf].
  rewrite dom_insert_lookup_L by (by rewrite Ep). by rewrite Hf.
Qed.

Lemma EpollCtl_dom k epfd op fd ev :
  dom (files (EpollCtl epfd op fd ev k).2) = dom (files k).
Proof.
  unfold EpollCtl.
  pop_script (CEpollCtl epfd op fd ev) k k0 Hf Ht; simpl; [by rewrite Hf|].
  destruct (files k0 !! epfd) as [[s0|e]|] eqn:Ep;
    destruct (files k0 !! fd) as [[s|e1]|]; simpl; try (by rewrite Hf).
  case_bool_decide; simpl; [|by rewrite Hf].
  destruct (ep_interest e !! fd); simpl; [by rewrite Hf|].
  rewrite dom_insert_lookup_L by (by rewrite Ep). by rewrite Hf.
Qed.

Lemma pollEvents_loop_dom epollEvents n i acc k :
  dom (files (pollEvents_loop epollEvents n i acc k).2) = dom (files k).
Proof.
  revert i acc k. induction n as [|n IH]; intros i acc k; simpl; [done|].
  destruct (epollEvents !! i) as [ee|]; [|done]. run. on_kernel.
  pose proof (GetsockoptInt_dom k (int (unix.Fd ee)) unix.SOL_SOCKET unix.SO_ERROR) as Hd.
  destruct (GetsockoptInt _ _ _ k) as [[errCode err] k1]. simpl in Hd.
  by rewrite IH.
Qed.

(** X11: [pollEvents], [registerEvents] and [connect] open and close
    nothing: whatever they return, the open descriptors are those from
    before the call. *)
Theorem open_descriptors_kept k :
  (∀ pollerFd timeout, dom (files (pollEvents pollerFd timeout k).2) = dom (files k)) ∧
  (∀ pollerFd fd, dom (files (registerEvents pollerFd fd k).2) = dom (files k)) ∧
  (∀ GOOS fd addr, dom (files (connect GOOS fd addr k).2) = dom (files k)).
Proof.
  repeat split.
  - intros pollerFd timeout. unfold pollEvents. run. on_kernel.
    pose proof (EpollWait_dom k pollerFd (replicate maxEpollEvents unix.EpollEvent_zero)
                  (int (timeout ÷ 1000000))) as Hd.
    destruct (EpollWait _ _ _ k) as [[[out n] [err|]] k1]; simpl in Hd.
    + by destruct (is_errno (Some err) unix.EINTR).
    + case_bool_decide; [done|].
      pose proof (pollEvents_loop_dom
                    (unix.stored (replicate maxEpollEvents unix.EpollEvent_zero) out)
                    (Z.to_nat n) 0 [] k1) as Hl.
      destruct (pollEvents_loop _ _ _ _ k1) as [[evs|] k2]; simpl in *; congruence.
  - intros pollerFd fd. unfold registerEvents. run. on_kernel.
    match goal with |- context [EpollCtl ?a ?b ?c ?d k] =>
      pose proof (EpollCtl_dom k a b c d) as Hd;
      destruct (EpollCtl a b c d k) as [[err|] k1]
    end; done.
  - intros GOOS fd addr. unfold connect. run. on_kernel.
    assert (Hd : dom (files (Connect fd addr k).2) = dom (files k)).
    { unfold Connect. by pop_script (CConnect fd addr) k k0 Hf Ht; simpl; rewrite Hf. }
    destruct (Connect fd addr k) as [serr k1]. simpl in Hd.
    repeat (case_match; try done).
Qed.

Lemma pending_errors_trace fds k :
  trace (pending_errors fds k).2 =
  trace k ++ ((λ fd, CGetsockoptInt fd unix.SOL_SOCKET unix.SO_ERROR) <$> fds).
Proof.
  revert k. induction fds as [|fd fds IH]; intros k; simpl.
  - by rewrite app_nil_r.
  - run. on_kernel.
    pose proof (GetsockoptInt_trace k fd unix.SOL_SOCKET unix.SO_ERROR) as Ht.
    destruct (GetsockoptInt _ _ _ k) as [r k1]. simpl in Ht.
    specialize (IH k1). destruct (pending_errors fds k1) as [rs k2]. simpl in *.
    by rewrite IH, Ht, <- app_assoc.
Qed.

(** X12: the calls of a [pollEvents] that returns: one wait, with the 32
    slots and the millisecond timeout, then one read of SO_ERROR for each
    event returned, in the order of the events, and nothing else. *)
Theorem pollEvents_calls k pollerFd timeout events err k' :
  is_int64 timeout →
  pollEvents pollerFd timeout k = (Ret (events, err), k') →
  trace k' =
    trace k ++
    CEpollWait pollerFd maxEpollEvents (timeout ÷ 1000000)
    :: ((λ evt, CGetsockoptInt (Fd evt) unix.SOL_SOCKET unix.SO_ERROR) <$> events).
Proof.
  intros Hin. unfold pollEvents. run. on_kernel.
  rewrite int_id by by apply quot_millis.
  pose proof (EpollWait_trace k pollerFd
                (replicate maxEpollEvents unix.EpollEvent_zero) (timeout ÷ 1000000)) as HT.
  rewrite length_replicate in HT.
  destruct (EpollWait _ _ _ k) as [[[out n] [e|]] k1]; simpl in HT.
  - destruct (is_errno (Some e) unix.EINTR); by intros [= <- _ <-].
  - case_bool_decide; [done|].
    destruct (pollEvents_loop _ _ _ _ k1) as [[evs|] k2] eqn:EL; [|done].
    intros [= <- _ <-].
    pose proof (pollEvents_loop_returns _ _ _ _ _ _ _ EL) as Hb.
    rewrite stored_length, length_replicate in Hb.
    rewrite pollEvents_loop_spec in EL.
    2:{ rewrite stored_length, length_replicate. lia. }
    injection EL as <- <-. rewrite drop_0. simpl.
    rewrite pending_errors_trace, HT, <- app_assoc. simpl. do 2 f_equal.
    rewrite (list_fmap_compose Fd (λ fd, CGetsockoptInt fd unix.SOL_SOCKET unix.SO_ERROR)).
    by rewrite zip_with_Fd by apply pending_errors_length.
Qed.


Lemma int32_round_trip (fd : Z) : -2147483648 ≤ fd < 2147483648 → int (int32 fd) = fd.
Proof.
  intros Hfd. unfold int, int32, wrap.
  change (2 ^ (32 - 1)) with 2147483648. change (2 ^ 32) with 4294967296.
  change (2 ^ (64 - 1)) with 9223372036854775808.
  change (2 ^ 64) with 18446744073709551616.
  rewrite (Z.mod_small (fd + 2147483648)) by lia.
  rewrite Z.mod_small; lia.
Qed.

(** X14: registration, completion and wait compose: once a socket whose
    descriptor fits in 32 bits is registered with a poller that has
    nothing queued, and its connect completes with a pending error code,
    the next wait returns exactly one event, for that descriptor, without
    error when the code is zero and with the connect-error of the code
    otherwise. *)
Theorem register_complete_poll k pollerFd fd code timeout k1 e :
  files k !! pollerFd = Some (FEpoll e) →
  ep_ready e = [] →
  -2147483648 ≤ fd < 2147483648 →
  registerEvents pollerFd fd k = (None, k1) →
  script k1 = [] →
  (pollEvents pollerFd timeout (Network.completes pollerFd fd code k1)).1 =
  Ret ([{| Fd := fd;
           Err := if bool_decide (code = 0) then None else Some (ErrConnect code) |}],
       None).
Proof.
  intros Hp Hq Hfd Hreg Hs.
  unfold registerEvents in Hreg. run. on_kernel.
  set (ev := {| unix.Events := Z.lor (Z.lor unix.EPOLLOUT unix.EPOLLIN) unix.EPOLLET;
                unix.Fd := int32 fd; unix.Pad := 0 |}) in *.
  destruct (EpollCtl pollerFd unix.EPOLL_CTL_ADD fd ev k) as [[err|] k1'] eqn:E1; [done|].
  injection Hreg as ->.
  apply EpollCtl_add_ok in E1 as (e0 & s & Hp0 & Hs0 & Hi & Hk1 & _).
  rewrite Hp in Hp0. injection Hp0 as <-.
  assert (Hne : pollerFd ≠ fd) by (intros ->; congruence).
  remember (Network.completes pollerFd fd code k1) as K eqn:HKdef.
  assert (HK : files K =
               <[pollerFd := FEpoll (set_ready [ev] (add_interest fd ev e))]>
                 (<[fd := FSocket (set_error code s)]> (files k1)) ∧ script K = []).
  { rewrite HKdef. unfold Network.completes.
    rewrite Hk1, lookup_insert_eq, lookup_insert_ne, Hs0 by done.
    simpl. rewrite lookup_insert_eq, Hq. by rewrite <- Hk1. }
  destruct HK as [HKf HKs]. clear HKdef.
  assert (EW : ∃ K1,
    EpollWait pollerFd (replicate maxEpollEvents unix.EpollEvent_zero)
      (int (timeout ÷ 1000000)) K = (([ev], 1, None), K1) ∧
    script K1 = [] ∧ files K1 !! fd = Some (FSocket (set_error code s))).
  { unfold EpollWait, next_fault, log. simpl. rewrite HKs. simpl.
    rewrite HKf, lookup_insert_eq. simpl.
    eexists. split; [reflexivity|]. simpl. split; [done|].
    by rewrite !lookup_insert_ne, lookup_insert_eq by done. }
  destruct EW as (K1 & EW & HK1s & HK1f).
  rewrite (pollEvents_ready (H := kernel_sys) _ _ _ _ _ _ EW)
    by (unfold maxEpollEvents; lia).
  cbn [fst]. change (Z.to_nat 1) with 1%nat.
  change (ready_fds (unix.stored (replicate maxEpollEvents unix.EpollEvent_zero) [ev]) 1)
    with [int (int32 fd)].
  rewrite int32_round_trip by done.
  simpl. run. on_kernel. unfold GetsockoptInt, next_fault, log. simpl.
  rewrite HK1s. simpl. rewrite HK1f. simpl. unfold attached. simpl.
  do 3 f_equal. by repeat case_bool_decide.
Qed.

(** X15: on a poller descriptor that is not open, as after its owner
    closed it, a wait returns no event and the syscall error of epoll_wait
    with the cause EBADF, and a registration returns the syscall error of
    the formatted epoll_ctl call with the same cause; neither changes the
    table. *)
Theorem closed_poller_is_reported k pollerFd :
  files k !! pollerFd = None →
  head (script k) = None ∨ head (script k) = Some None →
  (∀ timeout,
     (pollEvents pollerFd timeout k).1 =
       Ret ([], Some (SyscallError "epoll_wait" (Errno unix.EBADF))) ∧
     files (pollEvents pollerFd timeout k).2 = files k) ∧
  (∀ fd,
     (registerEvents pollerFd fd k).1 =
       Some (SyscallError
               ("epoll_ctl(" +:+ sprint_d pollerFd +:+ ", ADD, " +:+ sprint_d fd +:+ ", ...)")
               (Errno unix.EBADF)) ∧
     files (registerEvents pollerFd fd k).2 = files k).
Proof.
  intros Hp Hs. split.
  - intros timeout. unfold pollEvents. run. on_kernel.
    unfold EpollWait, next_fault. simpl.
    destruct (script k) as [|[f|] rest]; simpl in *;
      [|by destruct Hs|]; by rewrite Hp.
  - intros fd. unfold registerEvents. run. on_kernel.
    unfold EpollCtl, next_fault. simpl.
    destruct (script k) as [|[f|] rest]; simpl in *;
      [|by destruct Hs|]; rewrite Hp; by destruct (files k !! fd) as [[?|?]|].
Qed.

End OnKernel.

(** ** Runs on concrete kernels *)

Section Runs.

Import Kernel.

(** The spec's examples of address resolution. *)
Example parseSockAddr_loopback4 :
  (parseSockAddr "127.0.0.1:80" Scenario.resolving).1 =
  (Some (unix.SockaddrInet4 80 [Byte.x7f; Byte.x00; Byte.x00; Byte.x01]),
   unix.AF_INET, None).
Proof. vm_compute. reflexivity. Qed.

Example parseSockAddr_loopback6 :
  (parseSockAddr "[::1]:80" Scenario.resolving).1 =
  (Some (unix.SockaddrInet6 80 0 (replicate 15 Byte.x00 ++ [Byte.x01])),
   unix.AF_INET6, None).
Proof. vm_compute. reflexivity. Qed.

Example parseSockAddr_not_an_address :
  (parseSockAddr "not-an-address" Scenario.resolving).1 =
  (None, 0, Some (AddrError "missing port in address" "not-an-address")).
Proof. vm_compute. reflexivity. Qed.

(** Thirty-three ready sockets take two calls: thirty-two events, then the
    last one. *)
Example pollEvents_two_batches :
  let first := pollEvents 3 0 (Scenario.racing (Scenario.crowd 33) []) in
  let second := pollEvents 3 0 first.2 in
  first.1 = Ret ((λ p, {| Fd := p.1; Err := None |}) <$> Scenario.crowd 32, None) ∧
  second.1 = Ret ([{| Fd := 36; Err := None |}], None).
Proof. vm_compute. split; reflexivity. Qed.

(** A refused and an accepted connect, both ready: one failure with the
    cause, one success. *)
Example pollEvents_race :
  (pollEvents 3 1000000 (Scenario.racing [(4, unix.ECONNREFUSED); (5, 0)] [])).1 =
  Ret ([{| Fd := 4; Err := Some (ErrConnect unix.ECONNREFUSED) |};
        {| Fd := 5; Err := None |}], None).
Proof. vm_compute. reflexivity. Qed.


(** C8 as stated fails: the names are not [epoll_create] and
    [epoll_ctl]. *)
Lemma poller_errors_named_otherwise :
  ¬ (∀ (k : kernel) err,
       (createPoller k).1.2 = Some err →
       ∃ cause, err = SyscallError "epoll_create" cause) ∧
  ¬ (∀ (k : kernel) pollerFd fd err,
       (registerEvents pollerFd fd k).1 = Some err →
       ∃ cause, err = SyscallError "epoll_ctl" cause).
Proof.
  split; intros Hstated.
  - destruct (Hstated (boot [Some (-1, Errno unix.EMFILE)])
                (SyscallError "epoll_create1" (Errno unix.EMFILE)) eq_refl)
      as [cause Hc].
    discriminate Hc.
  - destruct (Hstated (boot [Some (-1, Errno unix.EBADF)]) 3 4
                (SyscallError "epoll_ctl(3, ADD, 4, ...)" (Errno unix.EBADF)) eq_refl)
      as [cause Hc].
    discriminate Hc.
Qed.

(** *** The theorems at concrete inputs *)

Lemma connect_classifies_witness :
  (unix.Connect 3 (unix.SockaddrInet4 80 [Byte.x7f; Byte.x00; Byte.x00; Byte.x01])
     (boot [Some (-1, Errno unix.EINPROGRESS)])).1 = Some (Errno unix.EINPROGRESS) ∧
  (connect "linux" 3 (unix.SockaddrInet4 80 [Byte.x7f; Byte.x00; Byte.x00; Byte.x01])
     (boot [Some (-1, Errno unix.EINPROGRESS)])).1 = (false, None).
Proof.
  split; [reflexivity|].
  apply (connect_classifies "linux" 3
           (unix.SockaddrInet4 80 [Byte.x7f; Byte.x00; Byte.x00; Byte.x01])
           (boot [Some (-1, Errno unix.EINPROGRESS)])).
  right. left. reflexivity.
Defined.

Lemma created_socket_attributes_witness :
  createSocketZeroLinger unix.AF_INET6 true (boot []) =
    ((0, None), (createSocketZeroLinger unix.AF_INET6 true (boot [])).2) ∧
  ∃ s, files (createSocketZeroLinger unix.AF_INET6 true (boot [])).2 !! 0 = Some (FSocket s) ∧
       so_family s = unix.AF_INET6 ∧ so_type s = unix.SOCK_STREAM ∧
       so_cloexec s = true ∧ so_nonblock s = true ∧
       so_quickack s = Some 0 ∧ quickack_on s = false.
Proof.
  assert (Hrun : createSocketZeroLinger unix.AF_INET6 true (boot []) =
                 ((0, None), (createSocketZeroLinger unix.AF_INET6 true (boot [])).2))
    by (vm_compute; reflexivity).
  split; [exact Hrun|].
  exact (proj2 (created_socket_attributes (boot []) unix.AF_INET6 true 0 _ Hrun)).
Defined.


Lemma pollEvents_connect_error_overwrites_witness :
  let k := Scenario.racing [(7, 0)] [None; Some (111, Errno unix.EBADF)] in
  let waited := unix.EpollWait 3 (replicate maxEpollEvents unix.EpollEvent_zero)
                  (int (0 ÷ 1000000)) k in
  waited.1.2 = None ∧ 0 ≤ waited.1.1.2 ≤ Z.of_nat maxEpollEvents ∧
  ∃ events, (pollEvents 3 0 k).1 = Ret (events, None).
Proof.
  intros k waited.
  assert (Hwait : waited = ((waited.1.1.1, waited.1.1.2, None), waited.2))
    by (vm_compute; reflexivity).
  assert (Hn : 0 ≤ waited.1.1.2 ≤ Z.of_nat maxEpollEvents)
    by (vm_compute; split; discriminate).
  split; [reflexivity|]. split; [exact Hn|].
  destruct (pollEvents_connect_error_overwrites 3 0 k _ _ _ Hwait Hn)
    as (events & Hrun & _).
  exists events. rewrite Hrun. reflexivity.
Defined.

Lemma pollEvents_interrupted_witness :
  let k := Scenario.racing [(5, 0)] [Some (-1, Errno unix.EINTR)] in
  let waited := unix.EpollWait 3 (replicate maxEpollEvents unix.EpollEvent_zero)
                  (int (1000000 ÷ 1000000)) k in
  waited.1.2 = Some (Errno unix.EINTR) ∧
  pollEvents 3 1000000 k = (Ret ([], None), waited.2).
Proof.
  intros k waited.
  assert (Hwait : waited = (([], -1, Some (Errno unix.EINTR)), waited.2))
    by (vm_compute; reflexivity).
  split; [reflexivity|].
  exact (proj1 (pollEvents_interrupted 3 1000000 k _ _ _ _ Hwait) eq_refl).
Defined.

Lemma parseSockAddr_resolves_witness :
  (net.ResolveTCPAddr "tcp" "127.0.0.1:80" Scenario.resolving).1 = inl Scenario.loopback4 ∧
  net.To4 (net.IP_ Scenario.loopback4) = Some [Byte.x7f; Byte.x00; Byte.x00; Byte.x01] ∧
  parseSockAddr "127.0.0.1:80" Scenario.resolving =
    ((Some (unix.SockaddrInet4 80 [Byte.x7f; Byte.x00; Byte.x00; Byte.x01]),
      unix.AF_INET, None),
     (net.ResolveTCPAddr "tcp" "127.0.0.1:80" Scenario.resolving).2).
Proof.
  assert (Hr : (net.ResolveTCPAddr "tcp" "127.0.0.1:80" Scenario.resolving).1
               = inl Scenario.loopback4) by (vm_compute; reflexivity).
  assert (H4 : net.To4 (net.IP_ Scenario.loopback4)
               = Some [Byte.x7f; Byte.x00; Byte.x00; Byte.x01]) by (vm_compute; reflexivity).
  split; [exact Hr|]. split; [exact H4|].
  exact (proj2 (proj1 (proj2 (parseSockAddr_resolves "127.0.0.1:80" Scenario.resolving)
                         Scenario.loopback4 Hr) _ H4)).
Defined.


Lemma surfaced_errors_are_named_witness :
  (createPoller (boot [Some (-1, Errno unix.EMFILE)])).1.2 =
    Some (SyscallError "epoll_create1" (Errno unix.EMFILE)) ∧
  ∃ cause,
    (unix.EpollCreate1 unix.EPOLL_CLOEXEC (boot [Some (-1, Errno unix.EMFILE)])).1.2
      = Some cause ∧
    SyscallError "epoll_create1" (Errno unix.EMFILE) = SyscallError "epoll_create1" cause.
Proof.
  split; [reflexivity|].
  exact (proj1 (surfaced_errors_are_named (boot [Some (-1, Errno unix.EMFILE)]))
           (SyscallError "epoll_create1" (Errno unix.EMFILE)) eq_refl).
Defined.


End Runs.

(** ** The further properties at concrete inputs *)

Section MoreRuns.

Import Kernel.

Lemma createSocketZeroLinger_socket_failure_witness :
  unix.Socket unix.AF_INET unix.SOCK_STREAM 0 (boot [Some (-1, Errno unix.EMFILE)]) =
    ((-1, Some (Errno unix.EMFILE)),
     (unix.Socket unix.AF_INET unix.SOCK_STREAM 0 (boot [Some (-1, Errno unix.EMFILE)])).2) ∧
  (createSocketZeroLinger unix.AF_INET true (boot [Some (-1, Errno unix.EMFILE)])).1 =
    (0, Some (Errno unix.EMFILE)).
Proof.
  assert (Hs : unix.Socket unix.AF_INET unix.SOCK_STREAM 0
                 (boot [Some (-1, Errno unix.EMFILE)]) =
               ((-1, Some (Errno unix.EMFILE)),
                (unix.Socket unix.AF_INET unix.SOCK_STREAM 0
                   (boot [Some (-1, Errno unix.EMFILE)])).2)) by reflexivity.
  split; [exact Hs|].
  rewrite (createSocketZeroLinger_socket_failure unix.AF_INET true _ _ _ _ Hs).
  reflexivity.
Defined.

Lemma connect_outcomes_witness :
  (connect "linux" 3 (unix.SockaddrInet4 80 [])
     (boot [Some (-1, Errno unix.ECONNREFUSED)])).1.2 = Some (Errno unix.ECONNREFUSED) ∧
  (connect "linux" 3 (unix.SockaddrInet4 80 [])
     (boot [Some (-1, Errno unix.ECONNREFUSED)])).1.1 = false.
Proof.
  split; [reflexivity|].
  exact (proj1 (proj1 (proj2 (connect_outcomes "linux" 3 (unix.SockaddrInet4 80 [])
                                (boot [Some (-1, Errno unix.ECONNREFUSED)])))
                  (Errno unix.ECONNREFUSED) eq_refl)).
Defined.

Lemma pollEvents_panics_on_bad_count_witness :
  @unix.EpollWait Z Misreport.sys 3 (replicate maxEpollEvents unix.EpollEvent_zero)
    (int (0 ÷ 1000000)) 33 = (([], 33, None), 33) ∧
  Z.of_nat maxEpollEvents < 33 ∧
  (@pollEvents Z Misreport.sys 3 0 33).1 = Panic.
Proof.
  assert (Hw : @unix.EpollWait Z Misreport.sys 3
                 (replicate maxEpollEvents unix.EpollEvent_zero)
                 (int (0 ÷ 1000000)) 33 = (([], 33, None), 33)) by reflexivity.
  assert (Hn : Z.of_nat maxEpollEvents < 33) by reflexivity.
  split; [exact Hw|]. split; [exact Hn|].
  exact (@pollEvents_panics_on_bad_count Z Misreport.sys 3 0 33 [] 33 33 Hw (or_intror Hn)).
Defined.

Lemma parseSockAddr_by_bytes_witness :
  (net.ResolveTCPAddr "tcp" "[::1]:80" Scenario.resolving).1 = inl Scenario.loopback6 ∧
  length (net.IP_ Scenario.loopback6) = 16%nat ∧
  take 12 (net.IP_ Scenario.loopback6) ≠ net.v4InV6Prefix ∧
  (parseSockAddr "[::1]:80" Scenario.resolving).1 =
    (Some (unix.SockaddrInet6 80 0 (net.IP_ Scenario.loopback6)), unix.AF_INET6, None).
Proof.
  assert (Hr : (net.ResolveTCPAddr "tcp" "[::1]:80" Scenario.resolving).1
               = inl Scenario.loopback6) by (vm_compute; reflexivity).
  assert (Hl : length (net.IP_ Scenario.loopback6) = 16%nat) by reflexivity.
  assert (Hp : take 12 (net.IP_ Scenario.loopback6) ≠ net.v4InV6Prefix)
    by (vm_compute; discriminate).
  split; [exact Hr|]. split; [exact Hl|]. split; [exact Hp|].
  exact (proj1 (proj2 (proj2 (parseSockAddr_by_bytes "[::1]:80" Scenario.resolving
                                Scenario.loopback6 Hr))) Hl Hp).
Defined.

Lemma socket_creation_error_releases_witness :
  let r := _createNonBlockingSocket unix.AF_INET
             (boot [None; Some (-1, Errno unix.EPERM)]) in
  r = ((0, Some (Errno unix.EPERM)), r.2) ∧
  dom (files r.2) = dom (files (boot [None; Some (-1, Errno unix.EPERM)])).
Proof.
  intros r.
  assert (Hr : r = ((0, Some (Errno unix.EPERM)), r.2)) by (vm_compute; reflexivity).
  split; [exact Hr|].
  exact (proj1 (proj1 (socket_creation_error_releases
                         (boot [None; Some (-1, Errno unix.EPERM)]) unix.AF_INET
                         0 (Errno unix.EPERM) r.2) Hr)).
Defined.

Lemma createSocketZeroLinger_linger_witness :
  let r := createSocketZeroLinger unix.AF_INET true (boot []) in
  r = ((0, None), r.2) ∧
  ∃ s, files r.2 !! 0 = Some (FSocket s) ∧
       so_linger s = Some {| unix.Onoff := 1; unix.Linger_ := 0 |}.
Proof.
  intros r.
  assert (Hr : r = ((0, None), r.2)) by (vm_compute; reflexivity).
  split; [exact Hr|].
  exact (proj1 (createSocketZeroLinger_linger (boot []) unix.AF_INET true 0 r.2 Hr)).
Defined.

Lemma createSocketZeroLinger_calls_witness :
  let r := createSocketZeroLinger unix.AF_INET6 false (boot []) in
  r = ((0, None), r.2) ∧
  trace r.2 =
    [CSocket unix.AF_INET6 unix.SOCK_STREAM 0; CCloseOnExec 0; CSetNonblock 0 true;
     CSetsockoptInt 0 unix.IPPROTO_TCP unix.TCP_QUICKACK 0].
Proof.
  intros r.
  assert (Hr : r = ((0, None), r.2)) by (vm_compute; reflexivity).
  split; [exact Hr|].
  exact (createSocketZeroLinger_calls (boot []) unix.AF_INET6 false 0 r.2 Hr).
Defined.

Lemma createPoller_opens_witness :
  let r := createPoller (boot []) in
  r = ((0, None), r.2) ∧
  files r.2 = <[0 := FEpoll {| ep_cloexec := true; ep_interest := ∅; ep_ready := [] |}]>
                (files (boot [])).
Proof.
  intros r.
  assert (Hr : r = ((0, None), r.2)) by (vm_compute; reflexivity).
  split; [exact Hr|].
  exact (proj2 (proj1 (createPoller_opens (boot [])) 0 r.2 Hr)).
Defined.


Lemma registerEvents_twice_witness :
  let first := registerEvents 0 1 Session.dialling in
  first = (None, first.2) ∧
  (registerEvents 0 1 first.2).1 =
    Some (SyscallError "epoll_ctl(0, ADD, 1, ...)" (Errno unix.EEXIST)).
Proof.
  intros first.
  assert (Hf : first = (None, first.2)) by (vm_compute; reflexivity).
  split; [exact Hf|].
  destruct (registerEvents_twice Session.dialling 0 1 first.2 Hf) as (k2 & Hrun & _).
  { left. vm_compute. reflexivity. }
  rewrite Hrun. reflexivity.
Defined.

Lemma pollEvents_calls_witness :
  let k := Scenario.racing [(5, 0); (6, unix.ECONNREFUSED)] [] in
  let r := pollEvents 3 1999999 k in
  is_int64 1999999 ∧
  r = (Ret ([{| Fd := 5; Err := None |};
             {| Fd := 6; Err := Some (ErrConnect unix.ECONNREFUSED) |}], None), r.2) ∧
  trace r.2 =
    [CEpollWait 3 maxEpollEvents 1;
     CGetsockoptInt 5 unix.SOL_SOCKET unix.SO_ERROR;
     CGetsockoptInt 6 unix.SOL_SOCKET unix.SO_ERROR].
Proof.
  intros k r.
  assert (Hi : is_int64 1999999) by (vm_compute; split; [discriminate|reflexivity]).
  assert (Hr : r = (Ret ([{| Fd := 5; Err := None |};
                          {| Fd := 6; Err := Some (ErrConnect unix.ECONNREFUSED) |}], None),
                    r.2)) by (vm_compute; reflexivity).
  split; [exact Hi|]. split; [exact Hr|].
  exact (pollEvents_calls k 3 1999999 _ _ r.2 Hi Hr).
Defined.


(** A refused connect, from registration to the event. *)
Lemma register_complete_poll_witness :
  let first := registerEvents 0 1 Session.dialling in
  first = (None, first.2) ∧ script first.2 = [] ∧
  (pollEvents 0 1000000 (Network.completes 0 1 unix.ECONNREFUSED first.2)).1 =
    Ret ([{| Fd := 1; Err := Some (ErrConnect unix.ECONNREFUSED) |}], None).
Proof.
  intros first.
  assert (Hp : files Session.dialling !! 0 =
               Some (FEpoll {| ep_cloexec := true; ep_interest := ∅; ep_ready := [] |}))
    by (vm_compute; reflexivity).
  assert (Hf : first = (None, first.2)) by (vm_compute; reflexivity).
  assert (Hs : script first.2 = []) by (vm_compute; reflexivity).
  split; [exact Hf|]. split; [exact Hs|].
  exact (register_complete_poll Session.dialling 0 1 unix.ECONNREFUSED 1000000 first.2 _
           Hp eq_refl ltac:(lia) Hf Hs).
Defined.

Lemma closed_poller_is_reported_witness :
  files (boot []) !! 7 = None ∧
  (pollEvents 7 1000000 (boot [])).1 =
    Ret ([], Some (SyscallError "epoll_wait" (Errno unix.EBADF))).
Proof.
  assert (Hp : files (boot []) !! 7 = None) by reflexivity.
  split; [exact Hp|].
  exact (proj1 (proj1 (closed_poller_is_reported (boot []) 7 Hp (or_introl eq_refl))
                  1000000)).
Defined.

End MoreRuns.
